(** * evennia/utils/picklefield.py: the pickled-object database field

    A shallow embedding of [evennia.utils.picklefield]: the text codec
    ([dbsafe_encode], [dbsafe_decode]), the conflict guard
    ([wrap_conflictual_object]), the admin form field ([PickledFormField.clean])
    and the model field ([PickledObjectField]) with its read path, write path,
    default resolution and lookup restriction.

    The module calls into Python's standard library (copy, pickle, zlib,
    base64, ast) and into Django.  The binary-to-text transform and the
    str/bytes conversions are modelled concretely; the pickler, the
    compressor, the deep copier, the literal evaluator and the Django base
    classes are taken as a record of operations ([Runtime]) the theorems are
    parametric in.  A reference runtime ([Ref]) gives executable models of
    those operations, on which the module runs on concrete data; [Aliasing]
    follows the copier and the pickler on values with identity. *)

From Stdlib Require Import ZArith List Bool Lia.
From Stdlib.Strings Require Import String Ascii Byte.
From Stdlib Require Import DecimalString.
From Stdlib Require Decimal DecimalFacts DecimalPos.
Import ListNotations.
Local Open Scope string_scope.
Local Open Scope Z_scope.

Set Implicit Arguments.

(** ** Exceptions and results *)

(** The exception classes the module raises, catches or lets through.  All of
    them derive from [Exception]. *)
Inductive exn : Type :=
| CopyError                         (* copy.Error *)
| TypeError (msg : string)
| AttributeError (name : string)
| BinasciiError (msg : string)      (* binascii.Error, a ValueError *)
| ZlibError                         (* zlib.error *)
| PicklingError
| UnpicklingError
| UnicodeDecodeError
| ValueError
| SyntaxError
| ValidationError (msg : string).   (* django.core.exceptions.ValidationError *)

Inductive result (A : Type) : Type :=
| Ok (a : A)
| Raise (e : exn).
Arguments Ok {A} a.
Arguments Raise {A} e.

Definition bytes := list byte.

(** ** Bytes as numbers *)

Definition Z_of_byte (b : byte) : Z := Z.of_N (Byte.to_N b).

(** Storing an [int] into an [unsigned char] keeps its low eight bits. *)
Definition byte_of_Z (z : Z) : byte :=
  match Byte.of_N (Z.to_N (Z.land z 255)) with
  | Some b => b
  | None => x00
  end.

Definition in_range (lo hi : Z) (b : byte) : bool :=
  (lo <=? Z_of_byte b) && (Z_of_byte b <=? hi).

(** ** base64: [b64encode] and [b64decode]

    [base64.b64encode(s)] is [binascii.b2a_base64(s, newline=False)] and
    [base64.b64decode(s)] without [validate] is [binascii.a2b_base64(s)] in
    its lenient mode. *)
Module Base64.

Definition table_b2a_base64 : list byte :=
  list_byte_of_string
    "ABCDEFGHIJKLMNOPQRSTUVWXYZabcdefghijklmnopqrstuvwxyz0123456789+/".

Definition BASE64_PAD : byte := "="%byte.

(** The character of a six-bit value. *)
Definition b2a (sextet : Z) : byte :=
  nth (Z.to_nat sextet) table_b2a_base64 BASE64_PAD.

Fixpoint index_of (c : byte) (tbl : list byte) (i : Z) : option Z :=
  match tbl with
  | [] => None
  | d :: tbl' => if Byte.eqb c d then Some i else index_of c tbl' (i + 1)
  end.

(** The six-bit value of a character of the alphabet ([table_a2b_base64]);
    [None] for every other byte. *)
Definition a2b (c : byte) : option Z := index_of c table_b2a_base64 0.

Fixpoint b64encode (s : bytes) : bytes :=
  match s with
  | [] => []
  | [a] =>
      let a := Z_of_byte a in
      [b2a (Z.shiftr a 2); b2a (Z.shiftl (Z.land a 3) 4); BASE64_PAD; BASE64_PAD]
  | [a; b] =>
      let a := Z_of_byte a in
      let b := Z_of_byte b in
      [b2a (Z.shiftr a 2);
       b2a (Z.lor (Z.shiftl (Z.land a 3) 4) (Z.shiftr b 4));
       b2a (Z.shiftl (Z.land b 15) 2);
       BASE64_PAD]
  | a :: b :: c :: rest =>
      let a := Z_of_byte a in
      let b := Z_of_byte b in
      let c := Z_of_byte c in
      b2a (Z.shiftr a 2)
      :: b2a (Z.lor (Z.shiftl (Z.land a 3) 4) (Z.shiftr b 4))
      :: b2a (Z.lor (Z.shiftl (Z.land b 15) 2) (Z.shiftr c 6))
      :: b2a (Z.land c 63)
      :: b64encode rest
  end.

Definition emit (b : byte) (r : result bytes) : result bytes :=
  match r with
  | Ok out => Ok (b :: out)
  | Raise e => Raise e
  end.

(** The decoding loop of [a2b_base64], lenient mode: bytes outside the
    alphabet are skipped; a pad character ends the input once it completes a
    quad; input that stops inside a quad is an error. *)
Fixpoint a2b_loop (ascii_data : bytes) (quad_pos : Z) (leftchar : Z) (pads : Z)
  : result bytes :=
  match ascii_data with
  | [] =>
      if quad_pos =? 0 then Ok []
      else if quad_pos =? 1 then
        Raise (BinasciiError "Invalid base64-encoded string: number of data characters cannot be 1 more than a multiple of 4")
      else Raise (BinasciiError "Incorrect padding")
  | this_ch :: rest =>
      if Byte.eqb this_ch BASE64_PAD then
        if (2 <=? quad_pos) && (4 <=? quad_pos + (pads + 1)) then Ok []
        else a2b_loop rest quad_pos leftchar
               (if 2 <=? quad_pos then pads + 1 else pads)
      else
        match a2b this_ch with
        | None => a2b_loop rest quad_pos leftchar pads
        | Some this_ch =>
            if quad_pos =? 0 then a2b_loop rest 1 this_ch 0
            else if quad_pos =? 1 then
              emit (byte_of_Z (Z.lor (Z.shiftl leftchar 2) (Z.shiftr this_ch 4)))
                   (a2b_loop rest 2 (Z.land this_ch 15) 0)
            else if quad_pos =? 2 then
              emit (byte_of_Z (Z.lor (Z.shiftl leftchar 4) (Z.shiftr this_ch 2)))
                   (a2b_loop rest 3 (Z.land this_ch 3) 0)
            else
              emit (byte_of_Z (Z.lor (Z.shiftl leftchar 6) this_ch))
                   (a2b_loop rest 0 0 0)
        end
  end.

Definition b64decode (s : bytes) : result bytes := a2b_loop s 0 0 0.

End Base64.

(** ** Checks over all bytes

    The facts about the six-bit groups of base64 are decided by running
    over every byte, or every pair of bytes. *)
Module ByteChecks.

Import Base64.

Definition all_bytes : list byte :=
  map (fun n => byte_of_Z (Z.of_nat n)) (seq 0 256).

Definition forall_byte (P : byte -> bool) : bool := forallb P all_bytes.

(** A six-bit value survives [b2a] and [a2b], and its character is not the
    pad. *)
Definition sextet_ok (s : Z) : bool :=
  match a2b (b2a s) with
  | Some s' => (s' =? s) && negb (Byte.eqb (b2a s) BASE64_PAD)
  | None => false
  end.

Definition s1 (a : byte) : Z := Z.shiftr (Z_of_byte a) 2.
Definition s2 (a b : Z) : Z := Z.lor (Z.shiftl (Z.land a 3) 4) (Z.shiftr b 4).
Definition s3 (b c : Z) : Z := Z.lor (Z.shiftl (Z.land b 15) 2) (Z.shiftr c 6).

(** The first two characters of a group give back the first byte. *)
Definition chk_ab (a b : byte) : bool :=
  let s2 := s2 (Z_of_byte a) (Z_of_byte b) in
  sextet_ok (s1 a) && sextet_ok s2
  && Byte.eqb (byte_of_Z (Z.lor (Z.shiftl (s1 a) 2) (Z.shiftr s2 4))) a
  && (Z.land s2 15 =? Z.shiftr (Z_of_byte b) 4).

(** The last two characters give back the second and the third byte. *)
Definition chk_bc (b c : byte) : bool :=
  let zb := Z_of_byte b in
  let zc := Z_of_byte c in
  let s3 := s3 zb zc in
  sextet_ok s3 && sextet_ok (Z.land zc 63)
  && Byte.eqb (byte_of_Z (Z.lor (Z.shiftl (Z.shiftr zb 4) 4) (Z.shiftr s3 2))) b
  && Byte.eqb (byte_of_Z (Z.lor (Z.shiftl (Z.land s3 3) 6) (Z.land zc 63))) c.

(** A final group of one byte. *)
Definition chk_a (a : byte) : bool :=
  let za := Z_of_byte a in
  let s2 := Z.shiftl (Z.land za 3) 4 in
  sextet_ok s2
  && Byte.eqb (byte_of_Z (Z.lor (Z.shiftl (s1 a) 2) (Z.shiftr s2 4))) a.

(** A final group of two bytes. *)
Definition chk_b (b : byte) : bool :=
  let zb := Z_of_byte b in
  let s3 := Z.shiftl (Z.land zb 15) 2 in
  sextet_ok s3
  && Byte.eqb (byte_of_Z (Z.lor (Z.shiftl (Z.shiftr zb 4) 4) (Z.shiftr s3 2))) b.

Definition is_ascii (b : byte) : bool := in_range 0 127 b.

End ByteChecks.

(** ** str and bytes

    The text of a Python [str] is kept as a Rocq [string] holding its UTF-8
    encoding, so [str.encode()] reads the bytes off and [bytes.decode()]
    succeeds exactly on well-formed UTF-8. *)

Definition utf8_tail (b : byte) : bool := in_range 0x80 0xBF b.

Fixpoint utf8_valid (bs : bytes) : bool :=
  match bs with
  | [] => true
  | b0 :: r0 =>
      if in_range 0x00 0x7F b0 then utf8_valid r0
      else
        match r0 with
        | [] => false
        | b1 :: r1 =>
            if in_range 0xC2 0xDF b0 then utf8_tail b1 && utf8_valid r1
            else
              match r1 with
              | [] => false
              | b2 :: r2 =>
                  if in_range 0xE0 0xEF b0 then
                    (if in_range 0xE0 0xE0 b0 then in_range 0xA0 0xBF b1
                     else if in_range 0xED 0xED b0 then in_range 0x80 0x9F b1
                     else utf8_tail b1)
                    && utf8_tail b2 && utf8_valid r2
                  else
                    match r2 with
                    | [] => false
                    | b3 :: r3 =>
                        in_range 0xF0 0xF4 b0
                        && (if in_range 0xF0 0xF0 b0 then in_range 0x90 0xBF b1
                            else if in_range 0xF4 0xF4 b0 then in_range 0x80 0x8F b1
                            else utf8_tail b1)
                        && utf8_tail b2 && utf8_tail b3 && utf8_valid r3
                    end
              end
        end
  end.

(** [b.decode()] *)
Definition bytes_decode (b : bytes) : result string :=
  if utf8_valid b then Ok (string_of_list_byte b) else Raise UnicodeDecodeError.

(** ** Python values *)

#[local] Set Warnings "-register-all".

Inductive pyval : Type :=
| PNone
| PBool (b : bool)
| PInt (n : Z)
| PStr (s : string)
| PickledObject (s : string)        (* class PickledObject(str) *)
| PBytes (b : bytes)
| PList (items : list pyval)
| PTuple (items : list pyval)
| PDict (items : list (pyval * pyval))
| PFunc (module qualname : string)  (* a module-level function or class *)
| PInstance (cls : string) (methods : list string)
            (state : list (string * pyval))
                                    (* an instance of a user-defined class *)
| PModel (key : string) (id : Z)    (* a live django.db.models.Model instance *)
| PNative (kind : string)           (* a lock, an open file, a socket *)
| _ObjectWrapper (_obj : pyval).     (* class _ObjectWrapper, one slot *)

Definition is_None (v : pyval) : bool :=
  match v with PNone => true | _ => false end.

(** [isinstance(v, str)] *)
Definition isinstance_str (v : pyval) : bool :=
  match v with PStr _ | PickledObject _ => true | _ => false end.

(** [isinstance(v, PickledObject)] *)
Definition isinstance_PickledObject (v : pyval) : bool :=
  match v with PickledObject _ => true | _ => false end.

(** [isinstance(v, _ObjectWrapper)] *)
Definition isinstance_ObjectWrapper (v : pyval) : bool :=
  match v with _ObjectWrapper _ => true | _ => false end.

Definition mem_string (x : string) (l : list string) : bool :=
  existsb (String.eqb x) l.

(** [hasattr(obj, name)] for names that no builtin type defines (the module
    asks for "prepare_database_save" only).  Every Django model instance has
    the method [prepare_database_save]. *)
Definition hasattr (obj : pyval) (name : string) : bool :=
  match obj with
  | PInstance _ methods state => mem_string name methods || mem_string name (map fst state)
  | PModel _ _ => String.eqb name "prepare_database_save"
  | _ => false
  end.

(** [callable(obj)] *)
Definition callable (obj : pyval) : bool :=
  match obj with
  | PFunc _ _ => true
  | PInstance _ methods _ => mem_string "__call__" methods
  | _ => false
  end.

(** [value.encode()]: a method of [str] only. *)
Definition str_encode (value : pyval) : result bytes :=
  match value with
  | PStr s | PickledObject s => Ok (list_byte_of_string s)
  | _ => Raise (AttributeError "encode")
  end.

(** [django.core.validators.EMPTY_VALUES]: None, '', [], (), {} *)
Definition empty_value (v : pyval) : bool :=
  match v with
  | PNone | PStr EmptyString | PList [] | PTuple [] | PDict [] => true
  | _ => false
  end.

(** ** Calls that leave the module *)

(** Every call into a library is recorded, newest first, so that a theorem
    can say that a path makes no such call. *)
Inductive event : Type :=
| Deepcopy (x : pyval)                       (* copy.deepcopy *)
| PackDbobj (item : pyval)                   (* evennia.utils.dbserialize.pack_dbobj *)
| Dumps (obj : pyval) (protocol : Z)         (* pickle.dumps *)
| Loads (data : bytes)                       (* pickle.loads *)
| Compress (data : bytes)                    (* zlib.compress *)
| Decompress (data : bytes)                  (* zlib.decompress *)
| B64encode (data : bytes)                   (* base64.b64encode *)
| B64decode (data : bytes)                   (* base64.b64decode *)
| LiteralEval (node_or_string : pyval)       (* ast.literal_eval *)
| Repr (obj : pyval)                         (* repr *)
| ForceStr (s : pyval)                       (* django.utils.encoding.force_str *)
| Call (f : pyval)                           (* f() *)
| CharFieldClean (value : pyval)             (* forms.CharField.clean *)
| FieldGetDefault                            (* models.Field.get_default *)
| FieldGetDbPrepLookup (lookup_type : string) (value : pyval).
                                             (* models.Field.get_db_prep_lookup *)

Definition trace := list event.

(** The libraries the module imports.  [pack_dbobj] is code of the
    repository outside the files at hand. *)
Class Runtime : Type := {
  deepcopy : pyval -> result pyval;
  pack_dbobj : pyval -> result pyval;
  dumps : pyval -> Z -> result bytes;
  loads : bytes -> result pyval;
  compress : bytes -> result bytes;
  decompress : bytes -> result bytes;
  literal_eval : pyval -> result pyval;
  repr : pyval -> result string;
  strip : string -> string;                  (* str.strip *)
  py_str : pyval -> result string;           (* str(s), for a non-str s *)
  call : pyval -> trace -> result pyval;     (* the outcome of f() after a history *)
  charfield_clean : pyval -> result pyval;
  field_get_default : result pyval;
  field_get_db_prep_lookup : string -> pyval -> result pyval
}.

(** ** Computations: a result together with the calls made *)

Definition M (A : Type) : Type := trace -> result A * trace.

Definition ret {A} (a : A) : M A := fun t => (Ok a, t).

Definition raise {A} (e : exn) : M A := fun t => (Raise e, t).

Definition bind {A B} (m : M A) (k : A -> M B) : M B :=
  fun t =>
    match m t with
    | (Ok a, t') => k a t'
    | (Raise e, t') => (Raise e, t')
    end.

Notation "x <- m ;; k" := (bind m (fun x => k))
  (at level 61, m at next level, right associativity).

(** A library call and its outcome. *)
Definition lib {A} (e : event) (r : result A) : M A := fun t => (r, e :: t).

(** [try: m  except <handles>: handler] *)
Definition try_except {A} (m : M A) (handles : exn -> bool) (handler : exn -> M A)
  : M A :=
  fun t =>
    match m t with
    | (Ok a, t') => (Ok a, t')
    | (Raise e, t') => if handles e then handler e t' else (Raise e, t')
    end.

(** [try: x = m  except <handles>: handler  else: orelse] *)
Definition try_except_else {A B} (m : M A) (handles : exn -> bool)
           (handler : exn -> M B) (orelse : A -> M B) : M B :=
  fun t =>
    match m t with
    | (Ok a, t') => orelse a t'
    | (Raise e, t') => if handles e then handler e t' else (Raise e, t')
    end.

(** [except CopyError] *)
Definition is_CopyError (e : exn) : bool :=
  match e with CopyError => true | _ => false end.

(** [except (ValueError, SyntaxError)]; binascii.Error and UnicodeDecodeError
    are subclasses of ValueError. *)
Definition is_ValueError_or_SyntaxError (e : exn) : bool :=
  match e with
  | ValueError | BinasciiError _ | UnicodeDecodeError | SyntaxError => true
  | _ => false
  end.

(** [except Exception]: every class of [exn] derives from [Exception], so the
    handler takes each of them.  What derives from [BaseException] only
    (SystemExit, KeyboardInterrupt, GeneratorExit) is no member of [exn]: the
    handler would let it through, and nothing below speaks of a library call
    that ends that way. *)
Definition is_Exception (e : exn) : bool := true.

Definition DEFAULT_PROTOCOL : Z := 4.

Section PickleField.

Context {rt : Runtime}.

(** ** The conflict guard *)

Definition wrap_conflictual_object (obj : pyval) : pyval :=
  if hasattr obj "prepare_database_save" || callable obj
  then _ObjectWrapper obj
  else obj.

(** ** The codec *)

Definition dbsafe_encode (value : pyval) (compress_object : bool)
           (pickle_protocol : Z) : M pyval :=
  value <- try_except (lib (Deepcopy value) (deepcopy value))
                      is_CopyError
                      (fun _ => lib (PackDbobj value) (pack_dbobj value)) ;;
  value <- lib (Dumps value pickle_protocol) (dumps value pickle_protocol) ;;
  value <- (if compress_object then lib (Compress value) (compress value)
            else ret value) ;;
  value <- lib (B64encode value) (bytes_decode (Base64.b64encode value)) ;;
  ret (PickledObject value).

Definition dbsafe_decode (value : pyval) (compress_object : bool) : M pyval :=
  value <- (fun t => (str_encode value, t)) ;;
  value <- lib (B64decode value) (Base64.b64decode value) ;;
  value <- (if compress_object then lib (Decompress value) (decompress value)
            else ret value) ;;
  lib (Loads value) (loads value).

(** ** The admin form field *)

Definition invalid_message : string :=
  "This is not a Python Literal. You can store things like strings, integers, or floats, but you must do it by typing them as you would type them in the Python Interpreter. For instance, strings must be surrounded by quote marks. We have converted it to a string for your convenience. If it is acceptable, please hit save again.".

(** [PickledFormField.clean] *)
Definition clean (value : pyval) : M pyval :=
  value <- lib (CharFieldClean value) (charfield_clean value) ;;
  (* handle empty input; a value without [strip] is left as it is *)
  let value :=
    match value with
    | PStr s | PickledObject s =>
        match strip s with
        | EmptyString => PStr "None"
        | _ => value
        end
    | _ => value
    end in
  (* parse raw Python, then fall through to parsing the repr() of the data *)
  try_except (lib (LiteralEval value) (literal_eval value))
    is_ValueError_or_SyntaxError
    (fun _ =>
       try_except
         (value <- lib (Repr value) (repr value) ;;
          lib (LiteralEval (PStr value)) (literal_eval (PStr value)))
         is_ValueError_or_SyntaxError
         (fun _ => raise (ValidationError invalid_message))).

(** ** The model field *)

Record PickledObjectField : Type := {
  compress_ : bool;           (* self.compress *)
  protocol : Z;               (* self.protocol *)
  default : option pyval      (* self.default; None for NOT_PROVIDED *)
}.

(** [django.utils.encoding.force_str]: an instance of [str] or of a subclass
    is returned as it is. *)
Definition force_str (s : pyval) : M pyval :=
  if isinstance_str s then ret s
  else s' <- lib (ForceStr s) (py_str s) ;; ret (PStr s').

Definition get_default (self : PickledObjectField) : M pyval :=
  match default self with
  | Some d =>
      if callable d then (fun t => (call d t, Call d :: t))
      else ret d
  | None =>
      (* without a default, punt to models.Field *)
      lib FieldGetDefault field_get_default
  end.

Definition from_db_value (self : PickledObjectField) (value : pyval) : M pyval :=
  if negb (is_None value) then
    try_except_else (dbsafe_decode value (compress_ self))
      is_Exception
      (fun e =>
         (* a definite pickle: the error is allowed to propagate *)
         if isinstance_PickledObject value then raise e
         else ret value)
      (fun decoded =>
         match decoded with
         | _ObjectWrapper _obj => ret _obj
         | _ => ret decoded
         end)
  else ret value.

(** [pre_save], given the attribute value [models.Field.pre_save] reads off
    the model instance. *)
Definition pre_save (value : pyval) : pyval := wrap_conflictual_object value.

Definition get_db_prep_value (self : PickledObjectField) (value : pyval) : M pyval :=
  if negb (is_None value) && negb (isinstance_PickledObject value) then
    encoded <- dbsafe_encode value (compress_ self) (protocol self) ;;
    force_str encoded
  else ret value.

Definition supported_lookups : list string := ["exact"; "in"; "isnull"].

Definition get_db_prep_lookup (self : PickledObjectField) (lookup_type : string)
           (value : pyval) : M pyval :=
  if negb (mem_string lookup_type supported_lookups) then
    raise (TypeError ("Lookup type " ++ lookup_type ++ " is not supported."))
  else
    (* models.Field prepares the value; all that is done here is to limit
       the lookup types *)
    lib (FieldGetDbPrepLookup lookup_type value)
        (field_get_db_prep_lookup lookup_type value).

(** A value is serializable when its deep copy is the value itself, the
    pickler writes it, the unpickler reads it back, and the compressed pickle
    decompresses to the pickle. *)
Definition serializable (v : pyval) (pickle_protocol : Z) : Prop :=
  exists b z : bytes,
    deepcopy v = Ok v /\ dumps v pickle_protocol = Ok b /\ loads b = Ok v
    /\ compress b = Ok z /\ decompress z = Ok b.

(** The text [dbsafe_encode] makes of the bytes it is left with. *)
Definition text_of (b : bytes) : string :=
  string_of_list_byte (Base64.b64encode b).

End PickleField.

(** * A reference runtime

    Executable models of the library calls, enough to run the module on
    concrete data: protocol 4 of pickle on None, bool, int (32 bits), str,
    bytes, list, tuple, dict, module-level names and the wrapper class, with
    every object written out in full (no two parts of a value are one shared
    object); zlib streams of stored blocks; [repr] and [ast.literal_eval] on
    the literals of those types. *)
Module Ref.

Local Open Scope list_scope.

(** *** Little-endian integers *)

Fixpoint le_bytes (n : nat) (z : Z) : bytes :=
  match n with
  | O => []
  | S n' => byte_of_Z z :: le_bytes n' (Z.shiftr z 8)
  end.

Fixpoint le_value (bs : bytes) : Z :=
  match bs with
  | [] => 0
  | b :: bs' => Z_of_byte b + 256 * le_value bs'
  end.

Definition len (bs : bytes) : Z := Z.of_nat (List.length bs).

Definition len_items {A} (l : list A) : Z := Z.of_nat (List.length l).

(** [take n data]: the first [n] bytes and the rest, if there are that many. *)
Definition take (n : Z) (data : bytes) : option (bytes * bytes) :=
  if (0 <=? n) && (n <=? len data)
  then Some (firstn (Z.to_nat n) data, skipn (Z.to_nat n) data)
  else None.

(** *** pickle, protocol 4 *)

Definition op (c : string) : bytes := list_byte_of_string c.

Definition MEMOIZE : bytes := [x94].

Definition save_str (s : string) : result bytes :=
  let u := list_byte_of_string s in
  if len u <? 256 then Ok ([x8c] ++ le_bytes 1 (len u) ++ u ++ MEMOIZE)
  else if len u <? 4294967296 then Ok (op "X" ++ le_bytes 4 (len u) ++ u ++ MEMOIZE)
  else Raise PicklingError.

Definition cat (a b : result bytes) : result bytes :=
  match a, b with
  | Ok x, Ok y => Ok (x ++ y)
  | Raise e, _ => Raise e
  | _, Raise e => Raise e
  end.

Definition save_global (module qualname : string) : result bytes :=
  cat (save_str module) (cat (save_str qualname) (Ok ([x93] ++ MEMOIZE))).

Fixpoint save (obj : pyval) : result bytes :=
  let save_all := fix save_all (l : list pyval) : result bytes :=
    match l with
    | [] => Ok []
    | x :: l' => cat (save x) (save_all l')
    end in
  let save_items := fix save_items (l : list (pyval * pyval)) : result bytes :=
    match l with
    | [] => Ok []
    | (k, v) :: l' => cat (save k) (cat (save v) (save_items l'))
    end in
  match obj with
  | PNone => Ok (op "N")
  | PBool true => Ok [x88]
  | PBool false => Ok [x89]
  | PInt n =>
      if (0 <=? n) && (n <? 256) then Ok (op "K" ++ le_bytes 1 n)
      else if (0 <=? n) && (n <? 65536) then Ok (op "M" ++ le_bytes 2 n)
      else if (-2147483648 <=? n) && (n <? 2147483648) then Ok (op "J" ++ le_bytes 4 n)
      else Raise PicklingError
  | PStr s => save_str s
  | PBytes b =>
      if len b <? 256 then Ok (op "C" ++ le_bytes 1 (len b) ++ b ++ MEMOIZE)
      else Raise PicklingError
  | PList items =>
      cat (Ok (op "]" ++ MEMOIZE))
          (match items with
           | [] => Ok []
           | [x] => cat (save x) (Ok (op "a"))
           | _ => if len_items items <=? 1000
                  then cat (Ok (op "(")) (cat (save_all items) (Ok (op "e")))
                  else Raise PicklingError
           end)
  | PTuple items =>
      match items with
      | [] => Ok (op ")")
      | [_] => cat (save_all items) (Ok ([x85] ++ MEMOIZE))
      | [_; _] => cat (save_all items) (Ok ([x86] ++ MEMOIZE))
      | [_; _; _] => cat (save_all items) (Ok ([x87] ++ MEMOIZE))
      | _ => cat (Ok (op "(")) (cat (save_all items) (Ok (op "t" ++ MEMOIZE)))
      end
  | PDict items =>
      cat (Ok (op "}" ++ MEMOIZE))
          (match items with
           | [] => Ok []
           | [_] => cat (save_items items) (Ok (op "s"))
           | _ => if len_items items <=? 1000
                  then cat (Ok (op "(")) (cat (save_items items) (Ok (op "u")))
                  else Raise PicklingError
           end)
  | PFunc module qualname => save_global module qualname
  | _ObjectWrapper _obj =>
      (* copyreg.__newobj__(cls), then the state (None, {'_obj': obj}) *)
      cat (save_global "evennia.utils.picklefield" "_ObjectWrapper")
          (cat (Ok (op ")" ++ [x81] ++ MEMOIZE ++ op "N" ++ op "}" ++ MEMOIZE))
               (cat (save_str "_obj")
                    (cat (save _obj) (Ok (op "s" ++ [x86] ++ MEMOIZE ++ op "b")))))
  | PNative kind => Raise (TypeError ("cannot pickle '" ++ kind ++ "' object")%string)
  | PickledObject _ | PInstance _ _ _ | PModel _ _ => Raise PicklingError
  end.

(** The protocol header, a frame around a payload of four bytes or more,
    the payload and STOP. *)
Definition framed (body : bytes) : bytes :=
  let payload := body ++ op "." in
  [x80; x04]
    ++ (if 4 <=? len payload then [x95] ++ le_bytes 8 (len payload) else [])
    ++ payload.

(** [pickle.dumps(obj, protocol=4)] *)
Definition dumps (obj : pyval) (protocol : Z) : result bytes :=
  if protocol =? 4 then
    match save obj with
    | Ok body => Ok (framed body)
    | Raise e => Raise e
    end
  else Raise PicklingError.

(** The unpickler's stack holds values, marks, and instances that NEWOBJ
    made and BUILD has not yet filled. *)
Inductive item : Type :=
| IVal (v : pyval)
| IMark
| INew (cls : pyval).

(** The values above the topmost mark, oldest first, and the stack below it. *)
Fixpoint pop_mark (stack : list item) (acc : list pyval)
  : option (list pyval * list item) :=
  match stack with
  | [] => None
  | IMark :: below => Some (acc, below)
  | IVal v :: below => pop_mark below (v :: acc)
  | INew _ :: _ => None
  end.

Fixpoint pairs (l : list pyval) : option (list (pyval * pyval)) :=
  match l with
  | [] => Some []
  | k :: v :: l' =>
      match pairs l' with
      | Some kv => Some ((k, v) :: kv)
      | None => None
      end
  | [_] => None
  end.

Definition ObjectWrapper_class : pyval :=
  PFunc "evennia.utils.picklefield" "_ObjectWrapper".

Definition is_ObjectWrapper_class (cls : pyval) : bool :=
  match cls with
  | PFunc module qualname =>
      String.eqb module "evennia.utils.picklefield"
      && String.eqb qualname "_ObjectWrapper"
  | _ => false
  end.

(** One opcode after another; [fuel] bounds the number of opcodes. *)
Fixpoint load (fuel : nat) (data : bytes) (stack : list item) (memo : list pyval)
  : result pyval :=
  match fuel, data with
  | S fuel, opcode :: data =>
      let fail := Raise UnpicklingError in
      let push v rest := load fuel rest (IVal v :: stack) memo in
      let sized n (k : bytes -> bytes -> result pyval) :=
        match take n data with
        | Some (arg, rest) => k arg rest
        | None => fail
        end in
      let counted n (k : bytes -> bytes -> result pyval) :=
        sized n (fun count rest =>
          match take (le_value count) rest with
          | Some (arg, rest) => k arg rest
          | None => fail
          end) in
      match opcode with
      | x80 (* PROTO *) => sized 1 (fun _ rest => load fuel rest stack memo)
      | x95 (* FRAME *) => sized 8 (fun _ rest => load fuel rest stack memo)
      | "."%byte (* STOP *) =>
          match stack with
          | IVal v :: _ => Ok v
          | _ => fail
          end
      | "N"%byte => push PNone data
      | x88 => push (PBool true) data
      | x89 => push (PBool false) data
      | "K"%byte => sized 1 (fun arg rest => push (PInt (le_value arg)) rest)
      | "M"%byte => sized 2 (fun arg rest => push (PInt (le_value arg)) rest)
      | "J"%byte =>
          sized 4 (fun arg rest =>
            let n := le_value arg in
            push (PInt (if n <? 2147483648 then n else n - 4294967296)) rest)
      | x8c (* SHORT_BINUNICODE *) =>
          counted 1 (fun arg rest =>
            match bytes_decode arg with
            | Ok s => push (PStr s) rest
            | Raise e => Raise e
            end)
      | "X"%byte (* BINUNICODE *) =>
          counted 4 (fun arg rest =>
            match bytes_decode arg with
            | Ok s => push (PStr s) rest
            | Raise e => Raise e
            end)
      | "C"%byte (* SHORT_BINBYTES *) =>
          counted 1 (fun arg rest => push (PBytes arg) rest)
      | "]"%byte => push (PList []) data
      | ")"%byte => push (PTuple []) data
      | "}"%byte => push (PDict []) data
      | "("%byte => load fuel data (IMark :: stack) memo
      | x94 (* MEMOIZE *) =>
          match stack with
          | IVal v :: _ => load fuel data stack (memo ++ [v])
          | INew cls :: _ => load fuel data stack (memo ++ [cls])
          | _ => fail
          end
      | "h"%byte (* BINGET *) =>
          sized 1 (fun arg rest =>
            match nth_error memo (Z.to_nat (le_value arg)) with
            | Some v => push v rest
            | None => fail
            end)
      | "a"%byte (* APPEND *) =>
          match stack with
          | IVal x :: IVal (PList items) :: below =>
              load fuel data (IVal (PList (items ++ [x])) :: below) memo
          | _ => fail
          end
      | "e"%byte (* APPENDS *) =>
          match pop_mark stack [] with
          | Some (xs, IVal (PList items) :: below) =>
              load fuel data (IVal (PList (items ++ xs)) :: below) memo
          | _ => fail
          end
      | "s"%byte (* SETITEM *) =>
          match stack with
          | IVal v :: IVal k :: IVal (PDict items) :: below =>
              load fuel data (IVal (PDict (items ++ [(k, v)])) :: below) memo
          | _ => fail
          end
      | "u"%byte (* SETITEMS *) =>
          match pop_mark stack [] with
          | Some (xs, IVal (PDict items) :: below) =>
              match pairs xs with
              | Some kv => load fuel data (IVal (PDict (items ++ kv)) :: below) memo
              | None => fail
              end
          | _ => fail
          end
      | x85 (* TUPLE1 *) =>
          match stack with
          | IVal a :: below => load fuel data (IVal (PTuple [a]) :: below) memo
          | _ => fail
          end
      | x86 (* TUPLE2 *) =>
          match stack with
          | IVal b :: IVal a :: below =>
              load fuel data (IVal (PTuple [a; b]) :: below) memo
          | _ => fail
          end
      | x87 (* TUPLE3 *) =>
          match stack with
          | IVal c :: IVal b :: IVal a :: below =>
              load fuel data (IVal (PTuple [a; b; c]) :: below) memo
          | _ => fail
          end
      | "t"%byte (* TUPLE *) =>
          match pop_mark stack [] with
          | Some (xs, below) => load fuel data (IVal (PTuple xs) :: below) memo
          | None => fail
          end
      | x93 (* STACK_GLOBAL *) =>
          match stack with
          | IVal (PStr qualname) :: IVal (PStr module) :: below =>
              load fuel data (IVal (PFunc module qualname) :: below) memo
          | _ => fail
          end
      | x81 (* NEWOBJ *) =>
          match stack with
          | IVal (PTuple []) :: IVal cls :: below =>
              if is_ObjectWrapper_class cls
              then load fuel data (INew cls :: below) memo
              else fail
          | _ => fail
          end
      | "b"%byte (* BUILD *) =>
          match stack with
          | IVal (PTuple [PNone; PDict [(PStr "_obj", _obj)]]) :: INew _ :: below =>
              load fuel data (IVal (_ObjectWrapper _obj) :: below) memo
          | _ => fail
          end
      | _ => fail
      end
  | _, _ => Raise UnpicklingError
  end.

(** [pickle.loads(data)] *)
Definition loads (data : bytes) : result pyval :=
  load (S (List.length data)) data [] [].

(** *** zlib: streams of stored blocks

    [compress] writes what [zlib.compress(data, 0)] writes; [decompress]
    reads such streams and refuses the others. *)

Definition adler32 (data : bytes) : Z :=
  let '(a, b) :=
    fold_left (fun '(a, b) c =>
                 let a := (a + Z_of_byte c) mod 65521 in
                 (a, (b + a) mod 65521))
              data (1, 0) in
  Z.lor (Z.shiftl b 16) a.

Definition be32 (z : Z) : bytes := rev (le_bytes 4 z).

Fixpoint stored_blocks (fuel : nat) (data : bytes) : bytes :=
  match fuel with
  | O => []
  | S fuel =>
      if len data <=? 65535 then
        [x01] ++ le_bytes 2 (len data) ++ le_bytes 2 (65535 - len data) ++ data
      else
        [x00; xff; xff; x00; x00] ++ firstn (Z.to_nat 65535) data
          ++ stored_blocks fuel (skipn (Z.to_nat 65535) data)
  end.

Definition compress (data : bytes) : result bytes :=
  Ok ([x78; x01] ++ stored_blocks (S (List.length data)) data
                 ++ be32 (adler32 data)).

(** The data of the stored blocks, and what follows the final block. *)
Fixpoint inflate_stored (fuel : nat) (stream : bytes) : option (bytes * bytes) :=
  match fuel, stream with
  | S fuel, header :: stream =>
      match take 2 stream with
      | Some (n, stream) =>
          match take 2 stream with
          | Some (nn, stream) =>
              if le_value n + le_value nn =? 65535 then
                match take (le_value n) stream with
                | Some (block, stream) =>
                    match header with
                    | x01 => Some (block, stream)
                    | x00 =>
                        match inflate_stored fuel stream with
                        | Some (data, trailer) => Some (block ++ data, trailer)
                        | None => None
                        end
                    | _ => None
                    end
                | None => None
                end
              else None
          | None => None
          end
      | None => None
      end
  | _, _ => None
  end.

Definition decompress (stream : bytes) : result bytes :=
  match stream with
  | x78 :: x01 :: stream =>
      match inflate_stored (List.length stream) stream with
      | Some (data, trailer) =>
          if Z.eqb (le_value (rev trailer)) (adler32 data)
             && Z.eqb (len trailer) 4
          then Ok data else Raise ZlibError
      | None => Raise ZlibError
      end
  | _ => Raise ZlibError
  end.

(** *** copy.deepcopy

    A value is copied part by part.  A native handle cannot be copied
    (TypeError: cannot pickle ... object); a live database model raises
    copy.Error, the case [dbsafe_encode] catches. *)
Fixpoint deepcopy (x : pyval) : result pyval :=
  let copy_all := fix copy_all (l : list pyval) : result (list pyval) :=
    match l with
    | [] => Ok []
    | y :: l' =>
        match deepcopy y, copy_all l' with
        | Ok y', Ok l'' => Ok (y' :: l'')
        | Raise e, _ => Raise e
        | _, Raise e => Raise e
        end
    end in
  let copy_items := fix copy_items (l : list (pyval * pyval))
      : result (list (pyval * pyval)) :=
    match l with
    | [] => Ok []
    | (k, v) :: l' =>
        match deepcopy k, deepcopy v, copy_items l' with
        | Ok k', Ok v', Ok l'' => Ok ((k', v') :: l'')
        | Raise e, _, _ => Raise e
        | _, Raise e, _ => Raise e
        | _, _, Raise e => Raise e
        end
    end in
  let copy_state := fix copy_state (l : list (string * pyval))
      : result (list (string * pyval)) :=
    match l with
    | [] => Ok []
    | (k, v) :: l' =>
        match deepcopy v, copy_state l' with
        | Ok v', Ok l'' => Ok ((k, v') :: l'')
        | Raise e, _ => Raise e
        | _, Raise e => Raise e
        end
    end in
  match x with
  | PList items =>
      match copy_all items with Ok l => Ok (PList l) | Raise e => Raise e end
  | PTuple items =>
      match copy_all items with Ok l => Ok (PTuple l) | Raise e => Raise e end
  | PDict items =>
      match copy_items items with Ok l => Ok (PDict l) | Raise e => Raise e end
  | PInstance cls methods state =>
      match copy_state state with
      | Ok l => Ok (PInstance cls methods l)
      | Raise e => Raise e
      end
  | _ObjectWrapper _obj =>
      match deepcopy _obj with
      | Ok o => Ok (_ObjectWrapper o)
      | Raise e => Raise e
      end
  | PModel _ _ => Raise CopyError
  | PNative kind => Raise (TypeError ("cannot pickle '" ++ kind ++ "' object")%string)
  | _ => Ok x
  end.

(** Modelled from the spec: [evennia.utils.dbserialize.pack_dbobj] is not
    among the files at hand; the spec calls it a reference-packing step that
    converts the live handle into a stable identifier-based placeholder.  Any
    other value is returned as it is. *)
Definition pack_dbobj (item : pyval) : result pyval :=
  match item with
  | PModel key id => Ok (PTuple [PStr "__packed_dbobj__"; PStr key; PInt id])
  | _ => Ok item
  end.

(** *** Text: [str.strip], [repr] and [ast.literal_eval] *)

Local Open Scope char_scope.
Local Open Scope Z_scope.

Definition code (c : ascii) : Z := Z.of_nat (nat_of_ascii c).

Definition quote2 : ascii := ascii_of_nat 34.   (* the double quote *)
Definition newline : ascii := ascii_of_nat 10.

(** ASCII white space, as [str.isspace] has it. *)
Definition is_space (c : ascii) : bool :=
  ((9 <=? code c) && (code c <=? 13)) || ((28 <=? code c) && (code c <=? 32)).

Fixpoint lstrip (s : string) : string :=
  match s with
  | String c s' => if is_space c then lstrip s' else s
  | EmptyString => s
  end.

Definition reverse (s : string) : string :=
  string_of_list_ascii (rev (list_ascii_of_string s)).

Definition strip (s : string) : string := reverse (lstrip (reverse (lstrip s))).

Fixpoint contains (c : ascii) (s : string) : bool :=
  match s with
  | String d s' => Ascii.eqb c d || contains c s'
  | EmptyString => false
  end.

Definition hex_digit (n : Z) : ascii :=
  match get (Z.to_nat n) "0123456789abcdef" with
  | Some c => c
  | None => "0"
  end.

Definition repr_char (q c : ascii) : string :=
  if Ascii.eqb c "\" then "\\"
  else if Ascii.eqb c q then String "\" (String q "")
  else if Ascii.eqb c newline then "\n"
  else if Ascii.eqb c (ascii_of_nat 13) then "\r"
  else if Ascii.eqb c (ascii_of_nat 9) then "\t"
  else if (code c <? 32) || (code c =? 127) then
    String "\" (String "x" (String (hex_digit (code c / 16))
                             (String (hex_digit (code c mod 16)) "")))
  else String c "".

(** [repr] of a str: single quotes, unless the text has a single quote and
    no double quote. *)
Definition repr_str (s : string) : string :=
  let q := if contains "'" s && negb (contains quote2 s) then quote2 else "'" in
  (String q (concat "" (map (repr_char q) (list_ascii_of_string s)))
     ++ String q "")%string.

Definition repr_int (n : Z) : string := NilZero.string_of_int (Z.to_int n).

Fixpoint repr_val (obj : pyval) : string :=
  let repr_all := fix repr_all (l : list pyval) : list string :=
    match l with
    | [] => []
    | x :: l' => repr_val x :: repr_all l'
    end in
  let repr_items := fix repr_items (l : list (pyval * pyval)) : list string :=
    match l with
    | [] => []
    | (k, v) :: l' => (repr_val k ++ ": " ++ repr_val v)%string :: repr_items l'
    end in
  (match obj with
   | PNone => "None"
   | PBool true => "True"
   | PBool false => "False"
   | PInt n => repr_int n
   | PStr s | PickledObject s => repr_str s
   | PBytes b => "b" ++ repr_str (string_of_list_byte b)
   | PList items => "[" ++ concat ", " (repr_all items) ++ "]"
   | PTuple [x] => "(" ++ repr_val x ++ ",)"
   | PTuple items => "(" ++ concat ", " (repr_all items) ++ ")"
   | PDict items => "{" ++ concat ", " (repr_items items) ++ "}"
   | PFunc module qualname => "<" ++ module ++ "." ++ qualname ++ ">"
   | PInstance cls _ _ => "<" ++ cls ++ " object>"
   | PModel key id => "<" ++ key ++ "#" ++ repr_int id ++ ">"
   | PNative kind => "<" ++ kind ++ " object>"
   | _ObjectWrapper _ => "<evennia.utils.picklefield._ObjectWrapper object>"
   end)%string.

Definition repr (obj : pyval) : result string := Ok (repr_val obj).

Definition is_digit (c : ascii) : bool := (48 <=? code c) && (code c <=? 57).

Definition is_ident (c : ascii) : bool :=
  is_digit c || ((65 <=? code c) && (code c <=? 90))
  || ((97 <=? code c) && (code c <=? 122)) || Ascii.eqb c "_".

Definition hex_value (c : ascii) : option Z :=
  if is_digit c then Some (code c - 48)
  else if (97 <=? code c) && (code c <=? 102) then Some (code c - 87)
  else if (65 <=? code c) && (code c <=? 70) then Some (code c - 55)
  else None.

(** The text of a string literal up to its closing quote [q], and the rest. *)
Fixpoint parse_str_body (q : ascii) (s : string) : option (string * string) :=
  let cons c r :=
    match r with
    | Some (body, rest) => Some (String c body, rest)
    | None => None
    end in
  match s with
  | EmptyString => None
  | String c rest =>
      if Ascii.eqb c q then Some (EmptyString, rest)
      else if Ascii.eqb c newline then None
      else if Ascii.eqb c "\" then
        match rest with
        | String "x" (String h1 (String h2 rest')) =>
            match hex_value h1, hex_value h2 with
            | Some a, Some b =>
                cons (ascii_of_nat (Z.to_nat (16 * a + b))) (parse_str_body q rest')
            | _, _ => None
            end
        | String "n" rest' => cons newline (parse_str_body q rest')
        | String "r" rest' => cons (ascii_of_nat 13) (parse_str_body q rest')
        | String "t" rest' => cons (ascii_of_nat 9) (parse_str_body q rest')
        | String e rest' =>
            if Ascii.eqb e "\" || Ascii.eqb e "'" || Ascii.eqb e quote2
            then cons e (parse_str_body q rest')
            else None
        | EmptyString => None
        end
      else cons c (parse_str_body q rest)
  end.

Fixpoint parse_digits (s : string) (acc : Z) : Z * string :=
  match s with
  | String c rest =>
      if is_digit c then parse_digits rest (10 * acc + (code c - 48)) else (acc, s)
  | EmptyString => (acc, s)
  end.

(** A decimal integer; a leading zero only as the number 0. *)
Definition parse_number (s : string) : option (Z * string) :=
  match s with
  | String c rest =>
      if is_digit c then
        let '(n, rest') := parse_digits s 0 in
        if Ascii.eqb c "0" && negb (n =? 0) then None
        else
          match rest' with
          | String d _ => if is_ident d || Ascii.eqb d "." then None else Some (n, rest')
          | EmptyString => Some (n, rest')
          end
      else None
  | EmptyString => None
  end.

(** [s] without the keyword [kw] at its start, when the keyword ends there. *)
Definition keyword (kw s : string) : option string :=
  if prefix kw s then
    let rest := substring (String.length kw) (String.length s - String.length kw) s in
    match rest with
    | String c _ => if is_ident c then None else Some rest
    | EmptyString => Some rest
    end
  else None.

Fixpoint parse_expr (fuel : nat) (s : string) {struct fuel}
  : option (pyval * string) :=
  match fuel with
  | O => None
  | S fuel =>
      match lstrip s with
      | EmptyString => None
      | String c rest as s =>
          if Ascii.eqb c "[" then
            match parse_items fuel rest "]" with
            | Some (xs, _, rest') => Some (PList xs, rest')
            | None => None
            end
          else if Ascii.eqb c "(" then
            match parse_items fuel rest ")" with
            | Some ([x], false, rest') => Some (x, rest')
            | Some (xs, _, rest') => Some (PTuple xs, rest')
            | None => None
            end
          else if Ascii.eqb c "{" then
            match parse_pairs fuel rest with
            | Some (kv, rest') => Some (PDict kv, rest')
            | None => None
            end
          else if Ascii.eqb c "'" || Ascii.eqb c quote2 then
            match parse_str_body c rest with
            | Some (body, rest') => Some (PStr body, rest')
            | None => None
            end
          else if Ascii.eqb c "-" then
            match parse_number (lstrip rest) with
            | Some (n, rest') => Some (PInt (- n), rest')
            | None => None
            end
          else if Ascii.eqb c "+" then
            match parse_number (lstrip rest) with
            | Some (n, rest') => Some (PInt n, rest')
            | None => None
            end
          else if is_digit c then
            match parse_number s with
            | Some (n, rest') => Some (PInt n, rest')
            | None => None
            end
          else
            match keyword "None" s, keyword "True" s, keyword "False" s with
            | Some rest', _, _ => Some (PNone, rest')
            | _, Some rest', _ => Some (PBool true, rest')
            | _, _, Some rest' => Some (PBool false, rest')
            | _, _, _ => None
            end
      end
  end

(** The items up to the closing bracket, whether a comma was seen, and the
    rest. *)
with parse_items (fuel : nat) (s : string) (close : ascii) {struct fuel}
  : option (list pyval * bool * string) :=
  match fuel with
  | O => None
  | S fuel =>
      match lstrip s with
      | EmptyString => None
      | String c rest as s =>
          if Ascii.eqb c close then Some ([], false, rest)
          else
            match parse_expr fuel s with
            | Some (x, rest') =>
                match lstrip rest' with
                | String d rest'' =>
                    if Ascii.eqb d close then Some ([x], false, rest'')
                    else if Ascii.eqb d "," then
                      match parse_items fuel rest'' close with
                      | Some (xs, _, rest3) => Some (x :: xs, true, rest3)
                      | None => None
                      end
                    else None
                | EmptyString => None
                end
            | None => None
            end
      end
  end

with parse_pairs (fuel : nat) (s : string) {struct fuel}
  : option (list (pyval * pyval) * string) :=
  match fuel with
  | O => None
  | S fuel =>
      match lstrip s with
      | EmptyString => None
      | String c rest as s =>
          if Ascii.eqb c "}" then Some ([], rest)
          else
            match parse_expr fuel s with
            | Some (k, rest') =>
                match lstrip rest' with
                | String ":" rest'' =>
                    match parse_expr fuel rest'' with
                    | Some (v, rest3) =>
                        match lstrip rest3 with
                        | String d rest4 =>
                            if Ascii.eqb d "}" then Some ([(k, v)], rest4)
                            else if Ascii.eqb d "," then
                              match parse_pairs fuel rest4 with
                              | Some (kv, rest5) => Some ((k, v) :: kv, rest5)
                              | None => None
                              end
                            else None
                        | EmptyString => None
                        end
                    | None => None
                    end
                | _ => None
                end
            | None => None
            end
      end
  end.

Fixpoint all_ident (s : string) : bool :=
  match s with
  | String c s' => is_ident c && all_ident s'
  | EmptyString => true
  end.

(** [ast.literal_eval]: text that is not a literal is a SyntaxError; a bare
    name, or an argument that is not text, is a ValueError (malformed node or
    string). *)
Definition literal_eval (node_or_string : pyval) : result pyval :=
  match node_or_string with
  | PStr s | PickledObject s =>
      match parse_expr (2 * String.length s + 2) s with
      | Some (v, rest) =>
          match lstrip rest with
          | EmptyString => Ok v
          | _ => Raise SyntaxError
          end
      | None =>
          match strip s with
          | String c _ as name =>
              if all_ident name && negb (is_digit c) then Raise ValueError
              else Raise SyntaxError
          | EmptyString => Raise SyntaxError
          end
      end
  | _ => Raise ValueError
  end.

Local Close Scope char_scope.

(** *** Django and callables *)

(** [forms.CharField.clean] with [required=False]: empty values become the
    empty text, other values their text, stripped; a null character is
    refused. *)
Definition charfield_clean (value : pyval) : result pyval :=
  if empty_value value then Ok (PStr "")
  else
    let text :=
      match value with
      | PStr s | PickledObject s => strip s
      | _ => strip (repr_val value)
      end in
    if contains (ascii_of_nat 0) text
    then Raise (ValidationError "Null characters are not allowed.")
    else Ok (PStr text).

Definition is_Call (e : event) : bool :=
  match e with Call _ => true | _ => false end.

(** Calling without arguments: the builtin constructors make an empty
    container; an instance with [__call__] counts the calls made so far. *)
Definition call (f : pyval) (history : trace) : result pyval :=
  match f with
  | PFunc "builtins" "list" => Ok (PList [])
  | PFunc "builtins" "dict" => Ok (PDict [])
  | PFunc "builtins" "tuple" => Ok (PTuple [])
  | PFunc "builtins" "str" => Ok (PStr "")
  | PInstance _ _ _ =>
      if callable f then Ok (PInt (len_items (filter is_Call history)))
      else Raise (TypeError "object is not callable")
  | _ => Raise (TypeError "object is not callable")
  end.

(** [str(s)] of a value that is not text. *)
Definition py_str (s : pyval) : result string :=
  match s with
  | PBytes b => bytes_decode b
  | _ => Ok (repr_val s)
  end.

(** [models.Field.get_default] of a field without a default. *)
Definition field_get_default : result pyval := Ok PNone.

(** [super().get_db_prep_lookup] under the Django of the repository, 3.2
    (src/evennia/help/migrations/0005_auto_20210530_1818.py was generated by
    Django 3.2.3): [models.Field] has had no method of that name since Django
    1.10, where the lookup classes took it over, so looking the attribute up
    on [super()] raises AttributeError, whatever the arguments. *)
Definition field_get_db_prep_lookup (lookup_type : string) (value : pyval)
  : result pyval := Raise (AttributeError "get_db_prep_lookup").

Definition runtime : Runtime :=
  Build_Runtime deepcopy pack_dbobj dumps loads compress decompress
                literal_eval repr strip py_str call charfield_clean
                field_get_default field_get_db_prep_lookup.

End Ref.

(** * Values with identity

    Above, a value is a tree: whether two equal parts of it are one object or
    two cannot be told.  The pickler can tell: it writes an object met a
    second time as a reference to the first.  Here values live in a store,
    lists hold addresses, and [copy.deepcopy], [pickle.dumps] and the first
    lines of [dbsafe_encode] are followed on such object graphs. *)
Module Aliasing.

Local Open Scope list_scope.

Inductive obj : Type :=
| OInt (n : Z)
| OStr (s : string)
| OList (items : list nat).

(** An address is a position in the store. *)
Definition store := list obj.

(** [memo]: from the identity of an object to what was recorded for it. *)
Definition memo := list (nat * nat).

Fixpoint lookup (id : nat) (m : memo) : option nat :=
  match m with
  | [] => None
  | (k, v) :: m' => if Nat.eqb id k then Some v else lookup id m'
  end.

Fixpoint set_nth (h : store) (a : nat) (o : obj) : store :=
  match h, a with
  | [], _ => []
  | _ :: h', O => o :: h'
  | x :: h', S a' => x :: set_nth h' a' o
  end.

(** Python's [==] on two values, each in its store. *)
Fixpoint py_eq (fuel : nat) (h1 : store) (a1 : nat) (h2 : store) (a2 : nat) : bool :=
  match fuel with
  | O => false
  | S fuel =>
      match nth_error h1 a1, nth_error h2 a2 with
      | Some (OInt n), Some (OInt m) => Z.eqb n m
      | Some (OStr s), Some (OStr t) => String.eqb s t
      | Some (OList xs), Some (OList ys) =>
          Nat.eqb (List.length xs) (List.length ys)
          && forallb (fun '(x, y) => py_eq fuel h1 x h2 y) (combine xs ys)
      | _, _ => false
      end
  end.

(** [copy.deepcopy(x, memo)]: an object already copied is answered from the
    memo; int and str are atomic and returned as they are; a list is copied
    into a new list, recorded in the memo before its items are copied. *)
Fixpoint deepcopy (fuel : nat) (h : store) (x : nat) (m : memo)
  : option (store * nat * memo) :=
  match fuel with
  | O => None
  | S fuel =>
      match lookup x m with
      | Some y => Some (h, y, m)
      | None =>
          match nth_error h x with
          | Some (OList items) =>
              let y := List.length h in
              let copy_items :=
                fix copy_items (items : list nat) (h : store) (m : memo)
                  : option (store * list nat * memo) :=
                  match items with
                  | [] => Some (h, [], m)
                  | a :: items' =>
                      match deepcopy fuel h a m with
                      | Some (h, a', m) =>
                          match copy_items items' h m with
                          | Some (h, copies, m) => Some (h, a' :: copies, m)
                          | None => None
                          end
                      | None => None
                      end
                  end in
              match copy_items items (h ++ [OList []]) ((x, y) :: m) with
              | Some (h, copies, m) => Some (set_nth h y (OList copies), y, m)
              | None => None
              end
          | Some _ => Some (h, x, m)
          | None => None
          end
      end
  end.

Definition BINGET (i : nat) : bytes :=
  if Z.of_nat i <? 256 then Ref.op "h" ++ Ref.le_bytes 1 (Z.of_nat i)
  else Ref.op "j" ++ Ref.le_bytes 4 (Z.of_nat i).

Definition bytes_of (r : result bytes) : option bytes :=
  match r with Ok b => Some b | Raise _ => None end.

(** [Pickler.save(obj)]: an object whose identity is in the memo is written
    as a reference to it; str and list are memoized when written, int is
    not. *)
Fixpoint save (fuel : nat) (h : store) (x : nat) (m : memo)
  : option (bytes * memo) :=
  match fuel with
  | O => None
  | S fuel =>
      match lookup x m with
      | Some i => Some (BINGET i, m)
      | None =>
          match nth_error h x with
          | Some (OInt n) =>
              match bytes_of (Ref.save (PInt n)) with
              | Some b => Some (b, m)
              | None => None
              end
          | Some (OStr s) =>
              match bytes_of (Ref.save_str s) with
              | Some b => Some (b, (x, List.length m) :: m)
              | None => None
              end
          | Some (OList items) =>
              let save_all :=
                fix save_all (items : list nat) (m : memo) : option (bytes * memo) :=
                  match items with
                  | [] => Some ([], m)
                  | a :: items' =>
                      match save fuel h a m with
                      | Some (b, m) =>
                          match save_all items' m with
                          | Some (b', m) => Some (b ++ b', m)
                          | None => None
                          end
                      | None => None
                      end
                  end in
              match save_all items ((x, List.length m) :: m) with
              | Some (b, m) =>
                  Some (Ref.op "]" ++ Ref.MEMOIZE
                          ++ match items with
                             | [] => []
                             | [_] => b ++ Ref.op "a"
                             | _ => Ref.op "(" ++ b ++ Ref.op "e"
                             end, m)
              | None => None
              end
          | None => None
          end
      end
  end.

(** [pickle.dumps(obj, protocol=4)] *)
Definition dumps (h : store) (x : nat) : option bytes :=
  match save (S (List.length h)) h x [] with
  | Some (body, _) => Some (Ref.framed body)
  | None => None
  end.

(** [dbsafe_encode(value)] with [compress_object=False]: the deep copy, the
    pickle of the copy, its base64 text. *)
Definition dbsafe_encode (h : store) (value : nat) : option pyval :=
  match deepcopy (S (List.length h)) h value [] with
  | Some (h, value, _) =>
      match dumps h value with
      | Some value =>
          match bytes_decode (Base64.b64encode value) with
          | Ok value => Some (PickledObject value)
          | Raise _ => None
          end
      | None => None
      end
  | None => None
  end.

(** [[a, a]]: one str object, twice in a list. *)
Definition same_twice : store := [OStr "hello"; OList [0%nat; 0%nat]].

(** [[a, b]]: two equal str objects in a list. *)
Definition equal_pair : store := [OStr "hello"; OStr "hello"; OList [0%nat; 1%nat]].

End Aliasing.

(** * Scenarios

    Concrete values and fields, run on the reference runtime. *)
Module Scenarios.

Local Open Scope list_scope.

Definition mapping : pyval :=
  PDict [(PStr "a", PInt 1); (PStr "b", PList [PInt 1; PInt 2; PInt 3])].

Definition plain : PickledObjectField :=
  {| compress_ := false; protocol := DEFAULT_PROTOCOL; default := None |}.

Definition compressed : PickledObjectField :=
  {| compress_ := true; protocol := DEFAULT_PROTOCOL; default := None |}.

(** A callable default that counts its calls. *)
Definition counter : pyval := PInstance "Counter" ["__call__"%string] [].

Definition counting : PickledObjectField :=
  {| compress_ := false; protocol := DEFAULT_PROTOCOL; default := Some counter |}.

Definition len_function : pyval := PFunc "builtins" "len".

Definition lock : pyval := PNative "_thread.lock".

Definition model : pyval := PModel "objectdb" 7.

Definition packed_model : pyval :=
  PTuple [PStr "__packed_dbobj__"; PStr "objectdb"; PInt 7].

Definition packed_model_pickle : bytes :=
  Eval vm_compute in
    match Ref.dumps packed_model 4 with Ok b => b | Raise _ => [] end.

Definition packed_model_compressed : bytes :=
  Eval vm_compute in
    match Ref.compress packed_model_pickle with Ok z => z | Raise _ => [] end.

End Scenarios.

(** * The admin widget and the rest of the field

    [PickledWidget.render] and [value_from_datadict], the keyword arguments
    of [PickledFormField], and [value_to_string], [formfield] and
    [get_internal_type] of the model field. *)

(** A dict with str keys, in insertion order: the widget's [attrs], the
    submitted [data], keyword arguments. *)
Definition pydict := list (string * pyval).

(** [d.get(key)] *)
Fixpoint dict_get (d : pydict) (key : string) : option pyval :=
  match d with
  | [] => None
  | (k, v) :: d' => if String.eqb key k then Some v else dict_get d' key
  end.

(** [d[key] = value]: a key already there keeps its place. *)
Fixpoint dict_set (d : pydict) (key : string) (value : pyval) : pydict :=
  match d with
  | [] => [(key, value)]
  | (k, v) :: d' =>
      if String.eqb key k then (k, value) :: d'
      else (k, v) :: dict_set d' key value
  end.

Definition LF : ascii := ascii_of_nat 10.

(** ["\n" in s] *)
Fixpoint has_newline (s : string) : bool :=
  match s with
  | EmptyString => false
  | String c s' => Ascii.eqb c LF || has_newline s'
  end.

(** [len(s.split("\n"))] *)
Fixpoint split_lines_len (s : string) : Z :=
  match s with
  | EmptyString => 1
  | String c s' =>
      if Ascii.eqb c LF then 1 + split_lines_len s' else split_lines_len s'
  end.

(** The Django forms layer under the widget: [Widget.build_attrs] and the
    HTML that [Textarea.render] makes. *)
Class Forms : Type := {
  build_attrs : pydict -> pydict;
  textarea_render : string -> pyval -> pydict -> result string
}.

Section PickleFieldForms.

Context {rt : Runtime} {forms : Forms}.

(** The number of rows [render] asks for. *)
Definition render_rows (value : pyval) (repr_value : string) : Z :=
  match value with
  | PStr s | PickledObject s =>
      if has_newline repr_value then Z.max 1 (split_lines_len s) else 1
  | _ => 1
  end.

(** [PickledWidget.render(name, value, attrs)] *)
Definition render (name : string) (value : pyval) (attrs : option pydict)
  : M string :=
  repr_value <- lib (Repr value) (repr value) ;;
  (* analyze represented value to see how big the field should be *)
  let attrs :=
    match attrs with
    | Some attrs => dict_set attrs "name" (PStr name)
    | None => [("name", PStr name)]
    end in
  let attrs := dict_set attrs "cols" (PInt 30) in
  (* adapt number of rows to number of lines in string *)
  let rows := render_rows value repr_value in
  let attrs := dict_set attrs "rows" (PInt rows) in
  let attrs := build_attrs attrs in
  (* convert it back after repr(), or show its representation *)
  value <- try_except
             (lib (LiteralEval (PStr repr_value)) (literal_eval (PStr repr_value)))
             is_ValueError_or_SyntaxError
             (fun _ => ret (PStr repr_value)) ;;
  (fun t => (textarea_render name value attrs, t)).

(** [PickledWidget.value_from_datadict(data, files, name)] *)
Definition value_from_datadict (data files : pydict) (name : string) : pyval :=
  match dict_get data name with
  | Some dat => dat
  | None => PNone
  end.

(** [PickledFormField.__init__]: the keyword arguments handed on to
    [CharField.__init__]. *)
Definition PickledFormField_init (kwargs : pydict) : pydict :=
  dict_set kwargs "required" (PBool false).

(** [PickledObjectField.formfield], on its keyword arguments. *)
Definition formfield (kwargs : pydict) : pydict := PickledFormField_init kwargs.

(** [value_to_string], given the value [value_from_object] reads off the
    model instance. *)
Definition value_to_string (self : PickledObjectField) (value : pyval) : M pyval :=
  get_db_prep_value self value.

Definition get_internal_type : string := "TextField".

End PickleFieldForms.

(** The characters a base64 text is made of. *)
Definition is_base64_char (c : byte) : bool :=
  Byte.eqb c Base64.BASE64_PAD
  || match Base64.a2b c with Some _ => true | None => false end.

(** A text of base64 characters, in groups of four. *)
Definition is_base64_text (s : string) : bool :=
  forallb is_base64_char (list_byte_of_string s)
  && (Z.of_nat (String.length s) mod 4 =? 0).

(** A call to zlib. *)
Definition is_zlib_call (e : event) : bool :=
  match e with
  | Compress _ | Decompress _ => true
  | _ => false
  end.

(** The forms layer of the reference runtime: [build_attrs] copies the dict;
    the textarea is written with its attributes and the escaped text of the
    value. *)
Module RefForms.

Local Open Scope list_scope.

Definition escape_char (c : ascii) : string :=
  if Ascii.eqb c "&" then "&amp;"
  else if Ascii.eqb c "<" then "&lt;"
  else if Ascii.eqb c ">" then "&gt;"
  else if Ascii.eqb c Ref.quote2 then "&quot;"
  else if Ascii.eqb c "'" then "&#x27;"
  else String c EmptyString.

(** [django.utils.html.escape] *)
Definition escape (s : string) : string :=
  concat "" (map escape_char (list_ascii_of_string s)).

Definition text_of_value (v : pyval) : string :=
  match v with
  | PStr s | PickledObject s => s
  | _ => Ref.repr_val v
  end.

Definition attribute (kv : string * pyval) : string :=
  (" " ++ fst kv ++ "=" ++ String Ref.quote2 (escape (text_of_value (snd kv)))
     ++ String Ref.quote2 EmptyString)%string.

(** [Widget.format_value]: the text a widget shows for its value, none for
    None and for the empty text, [str(value)] for every other value. *)
Definition shown_text (value : pyval) : string :=
  match value with
  | PNone => EmptyString
  | _ => text_of_value value
  end.

Definition textarea_render (name : string) (value : pyval) (attrs : pydict)
  : result string :=
  Ok ("<textarea name=" ++ String Ref.quote2 (escape name)
        ++ String Ref.quote2 (concat "" (map attribute attrs))
        ++ ">" ++ String LF (escape (shown_text value))
        ++ "</textarea>")%string.

Definition forms : Forms := Build_Forms (fun attrs => attrs) textarea_render.

(** The same forms layer seen from the browser: the text that stands in the
    textarea, which is what the HTML above shows once its entities are read,
    and what is posted back when the form is submitted as it is. *)
Definition shown : Forms :=
  Build_Forms (fun attrs => attrs) (fun _ value _ => Ok (shown_text value)).

End RefForms.

(** ** Submitting the admin form as it was rendered *)

Definition CR : ascii := ascii_of_nat 13.

(** A text without line breaks; the browser posts such a text back as it
    stands in the textarea. *)
Fixpoint single_line (s : string) : bool :=
  match s with
  | EmptyString => true
  | String c s' => negb (Ascii.eqb c LF) && negb (Ascii.eqb c CR) && single_line s'
  end.

(** The values [repr] writes as a literal: None, bool, int, str, and the
    lists, tuples and dicts made of such values. *)
Fixpoint is_literal (v : pyval) : bool :=
  match v with
  | PNone | PBool _ | PInt _ | PStr _ => true
  | PList items | PTuple items => forallb is_literal items
  | PDict items => forallb (fun kv => is_literal (fst kv) && is_literal (snd kv)) items
  | _ => false
  end.

(** The admin form round: [PickledWidget.render] shows the value, the text
    in the textarea is posted back under the name of the field,
    [value_from_datadict] picks it out of the posted data and
    [PickledFormField.clean] makes the value to save of it. *)
Definition resubmit (name : string) (value : pyval) (attrs : option pydict)
  : M pyval :=
  text <- @render Ref.runtime RefForms.shown name value attrs ;;
  @clean Ref.runtime (value_from_datadict [(name, PStr text)] [] name).

(** ** Measures for reading a repr back

    What the properties of [repr] and [ast.literal_eval] on the reference
    runtime are stated with. *)
Module Literals.

Import Decimal.

Local Open Scope list_scope.

(** The repr of one item of a dict. *)
Definition repr_item (kv : pyval * pyval) : string :=
  (Ref.repr_val (fst kv) ++ ": " ++ Ref.repr_val (snd kv))%string.

(** The number a run of decimal digits spells after the digits that gave
    [acc]. *)
Fixpoint uval (d : uint) (acc : Z) : Z :=
  match d with
  | Nil => acc
  | D0 d => uval d (10 * acc)
  | D1 d => uval d (10 * acc + 1)
  | D2 d => uval d (10 * acc + 2)
  | D3 d => uval d (10 * acc + 3)
  | D4 d => uval d (10 * acc + 4)
  | D5 d => uval d (10 * acc + 5)
  | D6 d => uval d (10 * acc + 6)
  | D7 d => uval d (10 * acc + 7)
  | D8 d => uval d (10 * acc + 8)
  | D9 d => uval d (10 * acc + 9)
  end.

(** What may follow a number or a keyword: nothing, or a character that is
    no part of a name and no decimal point. *)
Definition ends_token (rest : string) : bool :=
  match rest with
  | EmptyString => true
  | String c _ => negb (Ref.is_ident c) && negb (Ascii.eqb c ".")
  end.

(** The fuel the parser needs for the repr of a value. *)
Fixpoint need (v : pyval) : nat :=
  match v with
  | PList items | PTuple items =>
      S (fold_right (fun x n => S (Nat.max (need x) n)) 1%nat items)
  | PDict items =>
      S (fold_right (fun kv n => S (Nat.max (Nat.max (need (fst kv)) (need (snd kv))) n))
                    1%nat items)
  | _ => 1%nat
  end.

Definition need_items (items : list pyval) : nat :=
  fold_right (fun x n => S (Nat.max (need x) n)) 1%nat items.

Definition need_pairs (items : list (pyval * pyval)) : nat :=
  fold_right (fun kv n => S (Nat.max (Nat.max (need (fst kv)) (need (snd kv))) n))
             1%nat items.

(** A character a literal can begin with. *)
Definition begins_literal (c : ascii) : bool :=
  negb (Ref.is_space c) && negb (Ascii.eqb c "]") && negb (Ascii.eqb c ")")
  && negb (Ascii.eqb c "}").

(** The parser reads the repr of [v] back as [v], whatever follows. *)
Definition reads_back (v : pyval) : Prop :=
  forall fuel rest, (need v <= fuel)%nat -> ends_token rest = true ->
    Ref.parse_expr fuel (Ref.repr_val v ++ rest) = Some (v, rest).

Definition NUL : ascii := ascii_of_nat 0.

End Literals.

(** What the read path does to a decoded value: a wrapper gives what it
    holds. *)
Definition unwrapped (v : pyval) : pyval :=
  match v with
  | _ObjectWrapper _obj => _obj
  | _ => v
  end.

(** More values for the scenarios. *)
Module MoreScenarios.

Import Scenarios.

Local Open Scope list_scope.

(** A str of two lines. *)
Definition two_lines : pyval := PStr ("first" ++ String LF "second").

(** Attributes a caller passes to the widget. *)
Definition given_attrs : pydict :=
  [("cols"%string, PInt 80); ("class"%string, PStr "vLargeTextField")].

Definition mapping_pickle : bytes :=
  Eval vm_compute in
    match Ref.dumps mapping 4 with Ok b => b | Raise _ => [] end.

Definition mapping_compressed : bytes :=
  Eval vm_compute in
    match Ref.compress mapping_pickle with Ok z => z | Raise _ => [] end.

(** The payload of None, and the same with a line break in it. *)
Definition none_payload : string := "gAROLg==".

Definition none_payload_broken : string := ("gARO" ++ String LF "Lg==")%string.

End MoreScenarios.

(** * Properties *)

(** ** base64 *)

Section ListInd3.

Variable A : Type.
Variable P : list A -> Prop.
Hypothesis P0 : P [].
Hypothesis P1 : forall a, P [a].
Hypothesis P2 : forall a b, P [a; b].
Hypothesis P3 : forall a b c l, P l -> P (a :: b :: c :: l).

(** Induction three elements at a time, as [b64encode] consumes them. *)
Fixpoint list_ind3 (l : list A) : P l :=
  match l with
  | [] => P0
  | [a] => P1 a
  | [a; b] => P2 a b
  | a :: b :: c :: l' => P3 a b c (list_ind3 l')
  end.

End ListInd3.

Module Base64Facts.

Import Base64 ByteChecks.

Lemma all_bytes_complete (b : byte) : In b all_bytes.
Proof.
  assert (H : nth (Byte.to_nat b) all_bytes x00 = b) by (destruct b; reflexivity).
  rewrite <- H. apply nth_In.
  pose proof (Byte.to_nat_bounded b).
  change (List.length all_bytes) with 256%nat. lia.
Qed.

Lemma forall_byte_spec (P : byte -> bool) :
  forall_byte P = true -> forall b, P b = true.
Proof.
  unfold forall_byte. rewrite forallb_forall. intros H b.
  apply H, all_bytes_complete.
Qed.

Lemma sextet_ok_spec s :
  sextet_ok s = true ->
  Byte.eqb (b2a s) BASE64_PAD = false /\ a2b (b2a s) = Some s.
Proof.
  unfold sextet_ok. destruct (a2b (b2a s)) as [s'|]; [|discriminate].
  rewrite andb_true_iff, negb_true_iff, Z.eqb_eq. intros [-> ->]. auto.
Qed.

Lemma chk_ab_all : forall a b, chk_ab a b = true.
Proof.
  intros a. apply (forall_byte_spec (fun b => chk_ab a b)). revert a.
  apply (forall_byte_spec (fun a => forall_byte (fun b => chk_ab a b))).
  vm_compute. reflexivity.
Qed.

Lemma chk_bc_all : forall b c, chk_bc b c = true.
Proof.
  intros b. apply (forall_byte_spec (fun c => chk_bc b c)). revert b.
  apply (forall_byte_spec (fun b => forall_byte (fun c => chk_bc b c))).
  vm_compute. reflexivity.
Qed.

Lemma chk_a_all : forall a, chk_a a = true.
Proof. apply forall_byte_spec. vm_compute. reflexivity. Qed.

Lemma chk_b_all : forall b, chk_b b = true.
Proof. apply forall_byte_spec. vm_compute. reflexivity. Qed.

Ltac split_chk H :=
  repeat match type of H with
         | (_ && _ = true) =>
             let H' := fresh H in apply andb_prop in H; destruct H as [H H']
         end.

(** The decoder on a character of the alphabet, by position in the quad. *)
Lemma a2b_loop_q0 s rest leftchar pads :
  sextet_ok s = true ->
  a2b_loop (b2a s :: rest) 0 leftchar pads = a2b_loop rest 1 s 0.
Proof.
  intros H. apply sextet_ok_spec in H as [Hp Hs]. simpl. now rewrite Hp, Hs.
Qed.

Lemma a2b_loop_q1 s rest leftchar pads :
  sextet_ok s = true ->
  a2b_loop (b2a s :: rest) 1 leftchar pads =
    emit (byte_of_Z (Z.lor (Z.shiftl leftchar 2) (Z.shiftr s 4)))
         (a2b_loop rest 2 (Z.land s 15) 0).
Proof.
  intros H. apply sextet_ok_spec in H as [Hp Hs]. simpl. now rewrite Hp, Hs.
Qed.

Lemma a2b_loop_q2 s rest leftchar pads :
  sextet_ok s = true ->
  a2b_loop (b2a s :: rest) 2 leftchar pads =
    emit (byte_of_Z (Z.lor (Z.shiftl leftchar 4) (Z.shiftr s 2)))
         (a2b_loop rest 3 (Z.land s 3) 0).
Proof.
  intros H. apply sextet_ok_spec in H as [Hp Hs]. simpl. now rewrite Hp, Hs.
Qed.

Lemma a2b_loop_q3 s rest leftchar pads :
  sextet_ok s = true ->
  a2b_loop (b2a s :: rest) 3 leftchar pads =
    emit (byte_of_Z (Z.lor (Z.shiftl leftchar 6) s)) (a2b_loop rest 0 0 0).
Proof.
  intros H. apply sextet_ok_spec in H as [Hp Hs]. simpl. now rewrite Hp, Hs.
Qed.

Lemma a2b_loop_b64encode (s : bytes) : forall leftchar,
  a2b_loop (b64encode s) 0 leftchar 0 = Ok s.
Proof.
  induction s as [|a|a b|a b c s IH] using list_ind3; intros lc.
  - reflexivity.
  - pose proof (chk_ab_all a a) as Hab. pose proof (chk_a_all a) as Ha.
    unfold chk_ab in Hab. unfold chk_a in Ha. cbv zeta in *.
    split_chk Hab. split_chk Ha.
    cbn [b64encode]. cbv zeta.
    rewrite a2b_loop_q0 by assumption.
    rewrite a2b_loop_q1 by assumption.
    apply Byte.byte_dec_bl in Ha0. unfold s1 in Ha0. rewrite Ha0.
    reflexivity.
  - pose proof (chk_ab_all a b) as Hab. pose proof (chk_b_all b) as Hb.
    unfold chk_ab in Hab. unfold chk_b in Hb. cbv zeta in *.
    split_chk Hab. split_chk Hb.
    cbn [b64encode]. cbv zeta.
    rewrite a2b_loop_q0 by assumption.
    rewrite a2b_loop_q1 by assumption.
    rewrite a2b_loop_q2 by assumption.
    apply Z.eqb_eq in Hab0. unfold s2 in Hab0. rewrite Hab0.
    apply Byte.byte_dec_bl in Hab1, Hb0. unfold s1, s2 in Hab1. rewrite Hab1, Hb0.
    reflexivity.
  - pose proof (chk_ab_all a b) as Hab. pose proof (chk_bc_all b c) as Hbc.
    unfold chk_ab in Hab. unfold chk_bc in Hbc. cbv zeta in *.
    split_chk Hab. split_chk Hbc.
    cbn [b64encode]. cbv zeta.
    rewrite a2b_loop_q0 by assumption.
    rewrite a2b_loop_q1 by assumption.
    rewrite a2b_loop_q2 by assumption.
    rewrite a2b_loop_q3 by assumption.
    apply Z.eqb_eq in Hab0. unfold s2 in Hab0. rewrite Hab0.
    apply Byte.byte_dec_bl in Hab1, Hbc0, Hbc1.
    unfold s1, s2 in Hab1. unfold s3 in Hbc0, Hbc1.
    rewrite Hab1, Hbc1, Hbc0, IH. reflexivity.
Qed.

(** Decoding undoes encoding, for every byte string. *)
Lemma b64decode_b64encode (s : bytes) : b64decode (b64encode s) = Ok s.
Proof. apply a2b_loop_b64encode. Qed.

Lemma b2a_ascii (s : Z) : is_ascii (b2a s) = true.
Proof.
  unfold b2a.
  destruct (nth_in_or_default (Z.to_nat s) table_b2a_base64 BASE64_PAD) as [H | ->];
    [|reflexivity].
  revert H. generalize (nth (Z.to_nat s) table_b2a_base64 BASE64_PAD).
  apply forallb_forall. vm_compute. reflexivity.
Qed.

Lemma b64encode_ascii (s : bytes) : forallb is_ascii (b64encode s) = true.
Proof.
  induction s as [|a|a b|a b c s IH] using list_ind3;
    cbn [b64encode forallb]; cbv zeta; rewrite ?b2a_ascii, ?IH; reflexivity.
Qed.

Lemma ascii_utf8_valid (bs : bytes) : forallb is_ascii bs = true -> utf8_valid bs = true.
Proof.
  induction bs as [|b bs IH]; [reflexivity|].
  cbn [forallb]. rewrite andb_true_iff. intros [Hb Hbs].
  unfold is_ascii in Hb. cbn [utf8_valid]. rewrite Hb. auto.
Qed.

(** The base64 text is ASCII, so [.decode()] succeeds on it and [.encode()]
    gives the bytes back. *)
Lemma bytes_decode_b64encode (s : bytes) :
  bytes_decode (b64encode s) = Ok (text_of s).
Proof.
  unfold bytes_decode. now rewrite ascii_utf8_valid by apply b64encode_ascii.
Qed.

Lemma str_encode_text_of (s : bytes) :
  str_encode (PickledObject (text_of s)) = Ok (b64encode s)
  /\ str_encode (PStr (text_of s)) = Ok (b64encode s).
Proof.
  unfold str_encode, text_of. now rewrite list_byte_of_string_of_list_byte.
Qed.

End Base64Facts.

(** ** The reference runtime writes a str as a literal of itself *)

Module RefFacts.

Local Open Scope string_scope.

Lemma append_empty (s : string) : s ++ "" = s.
Proof. induction s as [|c s IH]; cbn; [reflexivity | now rewrite IH]. Qed.

Lemma append_assoc (a b c : string) : (a ++ b) ++ c = a ++ (b ++ c).
Proof. induction a as [|x a IH]; cbn; [reflexivity | now rewrite IH]. Qed.

Lemma concat_cons (x : string) (xs : list string) :
  concat "" (x :: xs) = x ++ concat "" xs.
Proof. destruct xs; cbn; [now rewrite append_empty | reflexivity]. Qed.

(** One character of the repr is read back as the character. *)
Lemma parse_repr_char (q c : ascii) (tail : string) :
  q = "'"%char \/ q = Ref.quote2 ->
  Ref.parse_str_body q (Ref.repr_char q c ++ tail) =
    match Ref.parse_str_body q tail with
    | Some (body, rest) => Some (String c body, rest)
    | None => None
    end.
Proof.
  intros [-> | ->];
    destruct c as [[] [] [] [] [] [] [] []]; reflexivity.
Qed.

Lemma parse_repr_body (q : ascii) (s rest : string) :
  q = "'"%char \/ q = Ref.quote2 ->
  Ref.parse_str_body q
    (concat "" (map (Ref.repr_char q) (list_ascii_of_string s)) ++ String q rest) =
    Some (s, rest).
Proof.
  intros Hq. induction s as [|c s IH].
  - cbn. now rewrite Ascii.eqb_refl.
  - cbn [list_ascii_of_string map]. rewrite concat_cons, append_assoc.
    now rewrite parse_repr_char, IH.
Qed.

Lemma parse_expr_quoted (fuel : nat) (q : ascii) (r : string) :
  q = "'"%char \/ q = Ref.quote2 ->
  Ref.parse_expr (S fuel) (String q r) =
    match Ref.parse_str_body q r with
    | Some (body, rest) => Some (PStr body, rest)
    | None => None
    end.
Proof. intros [-> | ->]; reflexivity. Qed.

(** [literal_eval(repr(s)) == s], for every str. *)
Lemma literal_eval_repr_str (s : string) :
  Ref.literal_eval (PStr (Ref.repr_str s)) = Ok (PStr s).
Proof.
  unfold Ref.literal_eval, Ref.repr_str.
  set (q := if Ref.contains "'" s && negb (Ref.contains Ref.quote2 s)
            then Ref.quote2 else "'"%char).
  assert (Hq : q = "'"%char \/ q = Ref.quote2)
    by (unfold q; destruct (_ && _); auto).
  set (body := concat "" (map (Ref.repr_char q) (list_ascii_of_string s))).
  change (String q body ++ String q "") with (String q (body ++ String q "")).
  destruct (2 * String.length (String q (body ++ String q "")) + 2)%nat as [|fuel] eqn:E;
    [lia|].
  assert (Hparse : Ref.parse_expr (S fuel) (String q (body ++ String q "")) =
                   Some (PStr s, "")).
  { pose proof (parse_repr_body s "" Hq) as Hbody. fold body in Hbody.
    now rewrite parse_expr_quoted, Hbody. }
  rewrite Hparse. reflexivity.
Qed.

(** The repr of a str holds no line feed. *)
Lemma repr_char_no_newline (q c : ascii) (tail : string) :
  q = "'"%char \/ q = Ref.quote2 ->
  has_newline (Ref.repr_char q c ++ tail) = has_newline tail.
Proof.
  intros [-> | ->];
    destruct c as [[] [] [] [] [] [] [] []]; reflexivity.
Qed.

Lemma repr_str_no_newline (s : string) : has_newline (Ref.repr_str s) = false.
Proof.
  unfold Ref.repr_str.
  set (q := if Ref.contains "'" s && negb (Ref.contains Ref.quote2 s)
            then Ref.quote2 else "'"%char).
  assert (Hq : q = "'"%char \/ q = Ref.quote2)
    by (unfold q; destruct (_ && _); auto).
  clearbody q.
  assert (Hbody : forall tail,
    has_newline (concat "" (map (Ref.repr_char q) (list_ascii_of_string s)) ++ tail)
    = has_newline tail).
  { intros tail. induction s as [|c s IH]; [reflexivity|].
    cbn [list_ascii_of_string map]. rewrite concat_cons, append_assoc.
    now rewrite repr_char_no_newline, IH. }
  change (has_newline (String q (concat "" (map (Ref.repr_char q) (list_ascii_of_string s))
                                   ++ String q "")) = false).
  cbn [has_newline]. rewrite Hbody. destruct Hq; subst q; reflexivity.
Qed.

End RefFacts.

(** ** The reference runtime reads the repr of a literal value back *)

Module LiteralFacts.

Import Decimal DecimalFacts.
Import Literals RefFacts.

Local Open Scope list_scope.

Lemma repr_val_map_all (items : list pyval) :
  Ref.repr_val (PList items) = ("[" ++ concat ", " (map Ref.repr_val items) ++ "]")%string.
Proof.
  reflexivity.
Qed.

Lemma repr_val_tuple (items : list pyval) :
  Ref.repr_val (PTuple items) =
    match items with
    | [x] => ("(" ++ Ref.repr_val x ++ ",)")%string
    | _ => ("(" ++ concat ", " (map Ref.repr_val items) ++ ")")%string
    end.
Proof.
  destruct items as [|x [|y l]]; reflexivity.
Qed.

Lemma repr_val_dict (items : list (pyval * pyval)) :
  Ref.repr_val (PDict items) = ("{" ++ concat ", " (map repr_item items) ++ "}")%string.
Proof.
  cbn [Ref.repr_val]. do 3 f_equal.
  induction items as [|[k v] l IH]; [reflexivity|]. cbn [map]. rewrite <- IH. reflexivity.
Qed.

Lemma literal_ind (P : pyval -> Prop) :
  P PNone -> (forall b, P (PBool b)) -> (forall n, P (PInt n)) -> (forall s, P (PStr s)) ->
  (forall items, Forall P items -> P (PList items)) ->
  (forall items, Forall P items -> P (PTuple items)) ->
  (forall items, Forall (fun kv => P (fst kv) /\ P (snd kv)) items -> P (PDict items)) ->
  forall v, is_literal v = true -> P v.
Proof.
  intros HN HB HI HS HL HT HD.
  fix IH 1. intros [] Hv; try discriminate Hv.
  - exact HN.
  - apply HB.
  - apply HI.
  - apply HS.
  - apply HL. cbn [is_literal] in Hv. induction items as [|x l IHl]; constructor.
    + apply IH. cbn in Hv. now apply andb_true_iff in Hv.
    + apply IHl. cbn in Hv. now apply andb_true_iff in Hv.
  - apply HT. cbn [is_literal] in Hv. induction items as [|x l IHl]; constructor.
    + apply IH. cbn in Hv. now apply andb_true_iff in Hv.
    + apply IHl. cbn in Hv. now apply andb_true_iff in Hv.
  - apply HD. cbn [is_literal] in Hv. induction items as [|[k v] l IHl]; constructor.
    + cbn in Hv. apply andb_true_iff in Hv as [Hkv _]. apply andb_true_iff in Hkv as [Hk Hv].
      split; apply IH; assumption.
    + apply IHl. cbn in Hv. now apply andb_true_iff in Hv.
Qed.

Lemma ends_token_no_digit (rest : string) :
  ends_token rest = true ->
  match rest with String c _ => Ref.is_digit c = false | EmptyString => True end.
Proof.
  destruct rest as [|c r]; [trivial|]. cbn [ends_token]. unfold Ref.is_ident.
  destruct (Ref.is_digit c); [discriminate | reflexivity].
Qed.

Lemma parse_digits_cons (c : ascii) (s : string) (acc : Z) :
  Ref.is_digit c = true ->
  Ref.parse_digits (String c s) acc = Ref.parse_digits s (10 * acc + (Ref.code c - 48)).
Proof. intros H. cbn [Ref.parse_digits]. now rewrite H. Qed.

Lemma parse_digits_uint (d : uint) (rest : string) (acc : Z) :
  ends_token rest = true ->
  Ref.parse_digits (NilEmpty.string_of_uint d ++ rest) acc = (uval d acc, rest).
Proof.
  intros Hrest. apply ends_token_no_digit in Hrest. revert acc.
  induction d as [|d IH|d IH|d IH|d IH|d IH|d IH|d IH|d IH|d IH|d IH]; intros acc;
    cbn [NilEmpty.string_of_uint append uval].
  - destruct rest as [|c r]; [reflexivity|]. cbn [Ref.parse_digits]. now rewrite Hrest.
  - rewrite parse_digits_cons, IH by reflexivity.
    change (Ref.code "0"%char - 48) with 0. now rewrite Z.add_0_r.
  - rewrite parse_digits_cons, IH by reflexivity. reflexivity.
  - rewrite parse_digits_cons, IH by reflexivity. reflexivity.
  - rewrite parse_digits_cons, IH by reflexivity. reflexivity.
  - rewrite parse_digits_cons, IH by reflexivity. reflexivity.
  - rewrite parse_digits_cons, IH by reflexivity. reflexivity.
  - rewrite parse_digits_cons, IH by reflexivity. reflexivity.
  - rewrite parse_digits_cons, IH by reflexivity. reflexivity.
  - rewrite parse_digits_cons, IH by reflexivity. reflexivity.
  - rewrite parse_digits_cons, IH by reflexivity. reflexivity.
Qed.

Lemma uval_of_uint_acc (d : uint) (acc : positive) :
  uval d (Z.pos acc) = Z.pos (Pos.of_uint_acc d acc).
Proof.
  revert acc.
  induction d as [|d IH|d IH|d IH|d IH|d IH|d IH|d IH|d IH|d IH|d IH]; intros acc;
    cbn [uval Pos.of_uint_acc]; [reflexivity|..];
    rewrite <- IH; f_equal; lia.
Qed.

Lemma uval_of_uint (d : uint) : uval d 0 = Z.of_N (Pos.of_uint d).
Proof.
  induction d as [|d IH|d IH|d IH|d IH|d IH|d IH|d IH|d IH|d IH|d IH];
    cbn [uval Pos.of_uint]; [reflexivity | exact IH | ..];
    cbn [Z.mul Z.add Z.of_N]; apply uval_of_uint_acc.
Qed.

Lemma uval_to_uint (p : positive) : uval (Pos.to_uint p) 0 = Z.pos p.
Proof. now rewrite uval_of_uint, DecimalPos.Unsigned.of_to. Qed.

(** The decimal digits of a positive number: a first digit that is not 0,
    then the rest. *)
Lemma to_uint_head (p : positive) :
  exists c s, NilEmpty.string_of_uint (Pos.to_uint p) = String c s
              /\ Ref.is_digit c = true /\ Ascii.eqb c "0" = false.
Proof.
  pose proof (DecimalPos.Unsigned.to_of (Pos.to_uint p)) as Hnorm.
  rewrite DecimalPos.Unsigned.of_to in Hnorm. cbn [N.to_uint] in Hnorm.
  pose proof (DecimalPos.Unsigned.to_uint_nonzero p) as Hnz.
  pose proof (DecimalPos.Unsigned.to_uint_nonnil p) as Hnil.
  destruct (Pos.to_uint p) as [|d|d|d|d|d|d|d|d|d|d] eqn:E;
    [congruence | | eexists; eexists; repeat split; reflexivity ..].
  exfalso. unfold unorm in Hnorm. cbn [nzhead] in Hnorm.
  destruct (nzhead d) eqn:Hd; try discriminate Hnorm.
  - congruence.
  - now apply nzhead_nonzero in Hd.
Qed.

Lemma parse_number_pos (p : positive) (rest : string) :
  ends_token rest = true ->
  Ref.parse_number (NilEmpty.string_of_uint (Pos.to_uint p) ++ rest) = Some (Z.pos p, rest).
Proof.
  intros Hrest. destruct (to_uint_head p) as (c & s & E & Hd & H0).
  pose proof (parse_digits_uint (Pos.to_uint p) rest 0 Hrest) as Hdigits.
  rewrite uval_to_uint in Hdigits. rewrite E in *. cbn [append] in *.
  unfold Ref.parse_number. rewrite Hd, Hdigits, H0. cbn [andb].
  destruct rest as [|d r]; [reflexivity|]. cbn [ends_token] in Hrest.
  destruct (Ref.is_ident d); [discriminate|]. destruct (Ascii.eqb d "."); [discriminate|].
  reflexivity.
Qed.

Lemma parse_number_zero (rest : string) :
  ends_token rest = true -> Ref.parse_number (String "0" rest) = Some (0, rest).
Proof.
  intros Hrest. pose proof (ends_token_no_digit rest Hrest) as Hnd.
  unfold Ref.parse_number. change (Ref.is_digit "0") with true. cbv iota.
  rewrite parse_digits_cons by reflexivity.
  assert (Hdigits : Ref.parse_digits rest (10 * 0 + (Ref.code "0" - 48)) = (0, rest)).
  { destruct rest as [|d r]; [reflexivity|]. cbn [Ref.parse_digits]. now rewrite Hnd. }
  rewrite Hdigits. cbn [Ascii.eqb Bool.eqb Z.eqb negb andb].
  destruct rest as [|d r]; [reflexivity|]. cbn [ends_token] in Hrest.
  destruct (Ref.is_ident d); [discriminate|]. destruct (Ascii.eqb d "."); [discriminate|].
  reflexivity.
Qed.

Lemma repr_int_pos (p : positive) :
  Ref.repr_int (Z.pos p) = NilEmpty.string_of_uint (Pos.to_uint p).
Proof.
  unfold Ref.repr_int. cbn [Z.to_int NilZero.string_of_int NilZero.string_of_uint].
  pose proof (DecimalPos.Unsigned.to_uint_nonnil p).
  destruct (Pos.to_uint p); [congruence | reflexivity ..].
Qed.

Lemma repr_int_neg (p : positive) :
  Ref.repr_int (Z.neg p) = String "-" (NilEmpty.string_of_uint (Pos.to_uint p)).
Proof.
  unfold Ref.repr_int. cbn [Z.to_int NilZero.string_of_int NilZero.string_of_uint].
  pose proof (DecimalPos.Unsigned.to_uint_nonnil p).
  destruct (Pos.to_uint p); [congruence | reflexivity ..].
Qed.

Lemma parse_expr_digit (fuel : nat) (c : ascii) (r : string) :
  Ref.is_digit c = true ->
  Ref.parse_expr (S fuel) (String c r) =
    match Ref.parse_number (String c r) with
    | Some (n, rest') => Some (PInt n, rest')
    | None => None
    end.
Proof.
  destruct c as [[] [] [] [] [] [] [] []]; intros H; try discriminate H; reflexivity.
Qed.

Lemma parse_expr_minus (fuel : nat) (r : string) :
  Ref.parse_expr (S fuel) (String "-" r) =
    match Ref.parse_number (Ref.lstrip r) with
    | Some (n, rest') => Some (PInt (- n), rest')
    | None => None
    end.
Proof. reflexivity. Qed.

Lemma lstrip_digit (c : ascii) (s : string) :
  Ref.is_digit c = true -> Ref.lstrip (String c s) = String c s.
Proof.
  destruct c as [[] [] [] [] [] [] [] []]; intros H; try discriminate H; reflexivity.
Qed.

Lemma parse_expr_int (fuel : nat) (n : Z) (rest : string) :
  ends_token rest = true ->
  Ref.parse_expr (S fuel) (Ref.repr_int n ++ rest) = Some (PInt n, rest).
Proof.
  intros Hrest. destruct n as [|p|p].
  - change (Ref.repr_int 0 ++ rest)%string with (String "0" rest).
    rewrite parse_expr_digit by reflexivity. now rewrite parse_number_zero.
  - rewrite repr_int_pos. pose proof (parse_number_pos p rest Hrest) as Hnum.
    destruct (to_uint_head p) as (c & s & E & Hd & _). rewrite E in *.
    cbn [append] in *. rewrite parse_expr_digit by assumption. now rewrite Hnum.
  - rewrite repr_int_neg. cbn [append]. rewrite parse_expr_minus.
    pose proof (parse_number_pos p rest Hrest) as Hnum.
    destruct (to_uint_head p) as (c & s & E & Hd & _). rewrite E in *.
    cbn [append] in *. rewrite lstrip_digit by assumption. now rewrite Hnum.
Qed.

Lemma prefix_append (kw rest : string) : prefix kw (kw ++ rest) = true.
Proof.
  induction kw as [|c kw IH]; [now destruct rest|]. cbn [append prefix].
  destruct (ascii_dec c c); [exact IH | congruence].
Qed.

Lemma substring_skip (kw rest : string) (n : nat) :
  substring (String.length kw) n (kw ++ rest) = substring 0 n rest.
Proof. induction kw as [|c kw IH]; [reflexivity | exact IH]. Qed.

Lemma substring_all (s : string) : substring 0 (String.length s) s = s.
Proof. induction s as [|c s IH]; [reflexivity|]. cbn. now rewrite IH. Qed.

Lemma length_app (a b : string) :
  String.length (a ++ b) = (String.length a + String.length b)%nat.
Proof. induction a as [|c a IH]; [reflexivity|]. cbn. now rewrite IH. Qed.

Lemma keyword_here (kw rest : string) :
  ends_token rest = true -> Ref.keyword kw (kw ++ rest) = Some rest.
Proof.
  intros Hrest. unfold Ref.keyword. rewrite prefix_append, length_app.
  replace (String.length kw + String.length rest - String.length kw)%nat
    with (String.length rest) by lia.
  rewrite substring_skip, substring_all.
  destruct rest as [|c r]; [reflexivity|]. cbn [ends_token] in Hrest.
  destruct (Ref.is_ident c); [discriminate | reflexivity].
Qed.

Lemma parse_expr_None (fuel : nat) (rest : string) :
  ends_token rest = true ->
  Ref.parse_expr (S fuel) ("None" ++ rest) = Some (PNone, rest).
Proof.
  intros Hrest. pose proof (keyword_here "None" rest Hrest) as H.
  change (Ref.parse_expr (S fuel) ("None" ++ rest)) with
    (match Ref.keyword "None" ("None" ++ rest),
           Ref.keyword "True" ("None" ++ rest),
           Ref.keyword "False" ("None" ++ rest) with
     | Some rest', _, _ => Some (PNone, rest')
     | _, Some rest', _ => Some (PBool true, rest')
     | _, _, Some rest' => Some (PBool false, rest')
     | _, _, _ => None
     end).
  now rewrite H.
Qed.

Lemma parse_expr_True (fuel : nat) (rest : string) :
  ends_token rest = true ->
  Ref.parse_expr (S fuel) ("True" ++ rest) = Some (PBool true, rest).
Proof.
  intros Hrest. pose proof (keyword_here "True" rest Hrest) as H.
  change (Ref.parse_expr (S fuel) ("True" ++ rest)) with
    (match Ref.keyword "True" ("True" ++ rest),
           Ref.keyword "False" ("True" ++ rest) with
     | Some rest', _ => Some (PBool true, rest')
     | _, Some rest' => Some (PBool false, rest')
     | _, _ => None
     end).
  now rewrite H.
Qed.

Lemma parse_expr_False (fuel : nat) (rest : string) :
  ends_token rest = true ->
  Ref.parse_expr (S fuel) ("False" ++ rest) = Some (PBool false, rest).
Proof.
  intros Hrest. pose proof (keyword_here "False" rest Hrest) as H.
  change (Ref.parse_expr (S fuel) ("False" ++ rest)) with
    (match Ref.keyword "False" ("False" ++ rest) with
     | Some rest' => Some (PBool false, rest')
     | None => None
     end).
  now rewrite H.
Qed.

Lemma parse_expr_space (fuel : nat) (s : string) :
  Ref.parse_expr fuel (String " " s) = Ref.parse_expr fuel s.
Proof. destruct fuel; reflexivity. Qed.

Lemma parse_items_space (fuel : nat) (s : string) (close : ascii) :
  Ref.parse_items fuel (String " " s) close = Ref.parse_items fuel s close.
Proof. destruct fuel; reflexivity. Qed.

Lemma parse_pairs_space (fuel : nat) (s : string) :
  Ref.parse_pairs fuel (String " " s) = Ref.parse_pairs fuel s.
Proof. destruct fuel; reflexivity. Qed.

Lemma parse_items_close (fuel : nat) (rest : string) (close : ascii) :
  close = "]"%char \/ close = ")"%char ->
  Ref.parse_items (S fuel) (String close rest) close = Some ([], false, rest).
Proof. intros [-> | ->]; reflexivity. Qed.

Lemma parse_pairs_close (fuel : nat) (rest : string) :
  Ref.parse_pairs (S fuel) (String "}" rest) = Some ([], rest).
Proof. reflexivity. Qed.

Lemma parse_items_step (fuel : nat) (c : ascii) (r : string) (close : ascii) :
  begins_literal c = true ->
  close = "]"%char \/ close = ")"%char ->
  Ref.parse_items (S fuel) (String c r) close =
    match Ref.parse_expr fuel (String c r) with
    | Some (x, rest') =>
        match Ref.lstrip rest' with
        | String d rest'' =>
            if Ascii.eqb d close then Some ([x], false, rest'')
            else if Ascii.eqb d "," then
              match Ref.parse_items fuel rest'' close with
              | Some (xs, _, rest3) => Some (x :: xs, true, rest3)
              | None => None
              end
            else None
        | EmptyString => None
        end
    | None => None
    end.
Proof.
  unfold begins_literal. intros Hc Hclose.
  repeat (apply andb_true_iff in Hc as [Hc ?]).
  apply negb_true_iff in Hc.
  assert (Hne : Ascii.eqb c close = false)
    by (destruct Hclose; subst close; now apply negb_true_iff).
  cbn [Ref.parse_items Ref.lstrip]. now rewrite Hc, Hne.
Qed.

Lemma parse_pairs_step (fuel : nat) (c : ascii) (r : string) :
  begins_literal c = true ->
  Ref.parse_pairs (S fuel) (String c r) =
    match Ref.parse_expr fuel (String c r) with
    | Some (k, rest') =>
        match Ref.lstrip rest' with
        | String ":" rest'' =>
            match Ref.parse_expr fuel rest'' with
            | Some (v, rest3) =>
                match Ref.lstrip rest3 with
                | String d rest4 =>
                    if Ascii.eqb d "}" then Some ([(k, v)], rest4)
                    else if Ascii.eqb d "," then
                      match Ref.parse_pairs fuel rest4 with
                      | Some (kv, rest5) => Some ((k, v) :: kv, rest5)
                      | None => None
                      end
                    else None
                | EmptyString => None
                end
            | None => None
            end
        | _ => None
        end
    | None => None
    end.
Proof.
  unfold begins_literal. intros Hc.
  repeat (apply andb_true_iff in Hc as [Hc ?]).
  apply negb_true_iff in Hc.
  assert (Hne : Ascii.eqb c "}" = false) by now apply negb_true_iff.
  cbn [Ref.parse_pairs Ref.lstrip]. now rewrite Hc, Hne.
Qed.

Lemma parse_expr_list (fuel : nat) (r : string) :
  Ref.parse_expr (S fuel) (String "[" r) =
    match Ref.parse_items fuel r "]" with
    | Some (xs, _, rest') => Some (PList xs, rest')
    | None => None
    end.
Proof. reflexivity. Qed.

Lemma parse_expr_tuple (fuel : nat) (r : string) :
  Ref.parse_expr (S fuel) (String "(" r) =
    match Ref.parse_items fuel r ")" with
    | Some ([x], false, rest') => Some (x, rest')
    | Some (xs, _, rest') => Some (PTuple xs, rest')
    | None => None
    end.
Proof. reflexivity. Qed.

Lemma parse_expr_dict (fuel : nat) (r : string) :
  Ref.parse_expr (S fuel) (String "{" r) =
    match Ref.parse_pairs fuel r with
    | Some (kv, rest') => Some (PDict kv, rest')
    | None => None
    end.
Proof. reflexivity. Qed.

Lemma digit_begins_literal (c : ascii) :
  Ref.is_digit c = true -> begins_literal c = true.
Proof.
  destruct c as [[] [] [] [] [] [] [] []]; intros H; try discriminate H; reflexivity.
Qed.

(** The repr of a literal value begins with a character that is no white
    space and closes no bracket. *)
Lemma repr_val_begins (v : pyval) :
  is_literal v = true ->
  exists c r, Ref.repr_val v = String c r /\ begins_literal c = true.
Proof.
  destruct v as [| [] | [|p|p] | s | | | | | | | | | | ]; intros Hv; try discriminate Hv.
  1-4: do 2 eexists; split; reflexivity.
  - destruct (to_uint_head p) as (c & r & E & Hd & _).
    exists c, r. split; [|now apply digit_begins_literal].
    change (Ref.repr_val (PInt (Z.pos p))) with (Ref.repr_int (Z.pos p)).
    now rewrite repr_int_pos.
  - change (Ref.repr_val (PInt (Z.neg p))) with (Ref.repr_int (Z.neg p)).
    rewrite repr_int_neg. do 2 eexists; split; reflexivity.
  - cbn [Ref.repr_val]. unfold Ref.repr_str.
    destruct (Ref.contains "'" s && negb (Ref.contains Ref.quote2 s));
      do 2 eexists; split; reflexivity.
  - rewrite repr_val_map_all. do 2 eexists; split; reflexivity.
  - rewrite repr_val_tuple. destruct items as [|x [|y l]]; do 2 eexists; split; reflexivity.
  - rewrite repr_val_dict. do 2 eexists; split; reflexivity.
Qed.

Lemma concat_map_cons (f : pyval -> string) (x y : pyval) (l : list pyval) (tail : string) :
  (concat ", " (map f (x :: y :: l)) ++ tail)%string =
  (f x ++ String "," (String " " (concat ", " (map f (y :: l)) ++ tail)))%string.
Proof. cbn [map concat]. now rewrite append_assoc. Qed.

Lemma parse_items_all (close : ascii) (items : list pyval) :
  close = "]"%char \/ close = ")"%char ->
  Forall reads_back items -> forallb is_literal items = true ->
  forall fuel rest, (need_items items <= fuel)%nat ->
    Ref.parse_items fuel (concat ", " (map Ref.repr_val items) ++ String close rest) close =
      Some (items, (2 <=? List.length items)%nat, rest).
Proof.
  intros Hclose Hall. induction Hall as [|x l Hx Hl IH]; intros Hlit fuel rest Hfuel.
  - destruct fuel as [|fuel]; [cbn in Hfuel; lia|]. now apply parse_items_close.
  - cbn [forallb] in Hlit. apply andb_true_iff in Hlit as [Hlx Hll].
    cbn [need_items fold_right] in Hfuel. fold (need_items l) in Hfuel.
    destruct fuel as [|fuel]; [lia|].
    destruct (repr_val_begins x Hlx) as (c & r & E & Hc).
    destruct l as [|y l].
    + cbn [map concat].
      assert (Hrest : ends_token (String close rest) = true)
        by (destruct Hclose; subst close; reflexivity).
      pose proof (Hx fuel (String close rest) ltac:(lia) Hrest) as Hparse.
      rewrite E in *. cbn [append] in *.
      rewrite parse_items_step, Hparse by assumption.
      assert (Hstrip : Ref.lstrip (String close rest) = String close rest)
        by (destruct Hclose; subst close; reflexivity).
      rewrite Hstrip. cbv iota. rewrite Ascii.eqb_refl. reflexivity.
    + rewrite concat_map_cons.
      set (tail := (concat ", " (map Ref.repr_val (y :: l)) ++ String close rest)%string).
      pose proof (Hx fuel (String "," (String " " tail)) ltac:(lia) eq_refl) as Hparse.
      rewrite E in *. cbn [append] in *.
      rewrite parse_items_step, Hparse by assumption.
      change (Ref.lstrip (String "," (String " " tail))) with (String "," (String " " tail)).
      assert (Hne : Ascii.eqb "," close = false)
        by (destruct Hclose; subst close; reflexivity).
      cbv iota. rewrite Hne. change (Ascii.eqb "," ",") with true. cbv iota.
      rewrite parse_items_space. unfold tail.
      rewrite (IH Hll fuel rest) by lia. reflexivity.
Qed.

Lemma concat_pairs_cons (f : pyval * pyval -> string) (x y : pyval * pyval)
      (l : list (pyval * pyval)) (tail : string) :
  (concat ", " (map f (x :: y :: l)) ++ tail)%string =
  (f x ++ String "," (String " " (concat ", " (map f (y :: l)) ++ tail)))%string.
Proof. cbn [map concat]. now rewrite append_assoc. Qed.

Lemma parse_pairs_all (items : list (pyval * pyval)) :
  Forall (fun kv => reads_back (fst kv) /\ reads_back (snd kv)) items ->
  forallb (fun kv => is_literal (fst kv) && is_literal (snd kv)) items = true ->
  forall fuel rest, (need_pairs items <= fuel)%nat ->
    Ref.parse_pairs fuel (concat ", " (map repr_item items) ++ String "}" rest) =
      Some (items, rest).
Proof.
  intros Hall. induction Hall as [|[k v] l [Hk Hv] Hl IH]; intros Hlit fuel rest Hfuel.
  - destruct fuel as [|fuel]; [cbn in Hfuel; lia|]. apply parse_pairs_close.
  - cbn [forallb fst snd] in Hlit. apply andb_true_iff in Hlit as [Hlkv Hll].
    apply andb_true_iff in Hlkv as [Hlk Hlv]. cbn [fst snd] in Hk, Hv.
    cbn [need_pairs fold_right fst snd] in Hfuel. fold (need_pairs l) in Hfuel.
    destruct fuel as [|fuel]; [lia|].
    destruct (repr_val_begins k Hlk) as (c & r & E & Hc).
    assert (Hitem : forall tail, ends_token tail = true ->
      Ref.parse_pairs (S fuel) (repr_item (k, v) ++ tail) =
        match Ref.lstrip tail with
        | String d rest4 =>
            if Ascii.eqb d "}" then Some ([(k, v)], rest4)
            else if Ascii.eqb d "," then
              match Ref.parse_pairs fuel rest4 with
              | Some (kv, rest5) => Some ((k, v) :: kv, rest5)
              | None => None
              end
            else None
        | EmptyString => None
        end).
    { intros tail Htail. unfold repr_item. cbn [fst snd].
      rewrite !append_assoc. cbn [append].
      pose proof (Hk fuel (String ":" (String " " (Ref.repr_val v ++ tail)))
                     ltac:(lia) eq_refl) as Hparse.
      rewrite E in *. cbn [append] in *.
      rewrite parse_pairs_step, Hparse by assumption.
      change (Ref.lstrip (String ":" (String " " (Ref.repr_val v ++ tail))))
        with (String ":" (String " " (Ref.repr_val v ++ tail))).
      cbv iota. rewrite parse_expr_space.
      now rewrite (Hv fuel tail ltac:(lia) Htail). }
    destruct l as [|y l].
    + cbn [map concat]. rewrite Hitem by reflexivity. reflexivity.
    + rewrite concat_pairs_cons.
      set (tail := (concat ", " (map repr_item (y :: l)) ++ String "}" rest)%string).
      rewrite Hitem by reflexivity.
      change (Ref.lstrip (String "," (String " " tail))) with (String "," (String " " tail)).
      cbv iota. change (Ascii.eqb "," "}") with false. change (Ascii.eqb "," ",") with true.
      cbv iota. rewrite parse_pairs_space. unfold tail.
      rewrite (IH Hll fuel rest) by lia. reflexivity.
Qed.

(** [literal_eval(repr(v)) == v]: the parser reads the repr of a literal
    value back as the value, given the fuel the value needs. *)
Lemma parse_expr_repr_val (v : pyval) : is_literal v = true -> reads_back v.
Proof.
  intros Hv.
  enough (H : is_literal v = true /\ reads_back v) by apply H.
  revert v Hv. apply literal_ind.
  - split; [reflexivity|].
    intros fuel rest Hfuel Hrest. destruct fuel as [|fuel]; [cbn in Hfuel; lia|].
    now apply parse_expr_None.
  - intros b. split; [reflexivity|].
    intros fuel rest Hfuel Hrest. destruct fuel as [|fuel]; [cbn in Hfuel; lia|].
    destruct b; [now apply parse_expr_True | now apply parse_expr_False].
  - intros n. split; [reflexivity|].
    intros fuel rest Hfuel Hrest. destruct fuel as [|fuel]; [cbn in Hfuel; lia|].
    now apply parse_expr_int.
  - intros s. split; [reflexivity|].
    intros fuel rest Hfuel Hrest. destruct fuel as [|fuel]; [cbn in Hfuel; lia|].
    cbn [Ref.repr_val]. unfold Ref.repr_str.
    set (q := if Ref.contains "'" s && negb (Ref.contains Ref.quote2 s)
              then Ref.quote2 else "'"%char).
    assert (Hq : q = "'"%char \/ q = Ref.quote2)
      by (unfold q; destruct (_ && _); auto).
    cbn [append]. rewrite append_assoc. cbn [append].
    rewrite parse_expr_quoted by assumption. now rewrite parse_repr_body.
  - intros items Hall.
    assert (Hlit : forallb is_literal items = true)
      by (apply forallb_forall; intros x Hx;
          now apply (proj1 (Forall_forall _ _) Hall x Hx)).
    assert (Hback : Forall reads_back items)
      by (eapply Forall_impl; [|exact Hall]; now intros x [_ Hx]).
    split; [exact Hlit|].
    intros fuel rest Hfuel Hrest. destruct fuel as [|fuel]; [cbn in Hfuel; lia|].
    cbn [need] in Hfuel. fold (need_items items) in Hfuel.
    rewrite repr_val_map_all. cbn [append]. rewrite append_assoc. cbn [append].
    rewrite parse_expr_list.
    now rewrite (@parse_items_all "]" items (or_introl eq_refl) Hback Hlit fuel rest)
      by lia.
  - intros items Hall.
    assert (Hlit : forallb is_literal items = true)
      by (apply forallb_forall; intros x Hx;
          now apply (proj1 (Forall_forall _ _) Hall x Hx)).
    assert (Hback : Forall reads_back items)
      by (eapply Forall_impl; [|exact Hall]; now intros x [_ Hx]).
    split; [exact Hlit|].
    intros fuel rest Hfuel Hrest. destruct fuel as [|fuel]; [cbn in Hfuel; lia|].
    cbn [need] in Hfuel. fold (need_items items) in Hfuel.
    rewrite repr_val_tuple.
    destruct items as [|x [|y l]].
    + destruct fuel as [|fuel]; [cbn in Hfuel; lia|]. reflexivity.
    + cbn [append]. rewrite append_assoc. cbn [append]. rewrite parse_expr_tuple.
      cbn [need_items fold_right] in Hfuel.
      destruct fuel as [|fuel]; [lia|].
      apply Forall_inv in Hback. cbn [forallb] in Hlit.
      apply andb_true_iff in Hlit as [Hlx _].
      destruct (repr_val_begins x Hlx) as (c & r & E & Hc).
      pose proof (Hback fuel (String "," (String ")" rest)) ltac:(lia) eq_refl) as Hparse.
      rewrite E in *. cbn [append] in *.
      rewrite parse_items_step, Hparse by auto.
      change (Ref.lstrip (String "," (String ")" rest))) with (String "," (String ")" rest)).
      cbv iota. change (Ascii.eqb "," ")") with false. change (Ascii.eqb "," ",") with true.
      cbv iota. destruct fuel as [|fuel]; [lia|].
      rewrite parse_items_close by auto. reflexivity.
    + cbn [append]. rewrite append_assoc. cbn [append]. rewrite parse_expr_tuple.
      now rewrite (@parse_items_all ")" (x :: y :: l) (or_intror eq_refl) Hback Hlit fuel rest)
        by lia.
  - intros items Hall.
    assert (Hlit : forallb (fun kv => is_literal (fst kv) && is_literal (snd kv)) items = true).
    { apply forallb_forall. intros kv Hkv.
      destruct (proj1 (Forall_forall _ _) Hall kv Hkv) as [[Hk _] [Hv _]].
      now rewrite Hk, Hv. }
    assert (Hback : Forall (fun kv => reads_back (fst kv) /\ reads_back (snd kv)) items)
      by (eapply Forall_impl; [|exact Hall]; now intros kv [[_ Hk] [_ Hv]]).
    split; [exact Hlit|].
    intros fuel rest Hfuel Hrest. destruct fuel as [|fuel]; [cbn in Hfuel; lia|].
    cbn [need] in Hfuel. fold (need_pairs items) in Hfuel.
    rewrite repr_val_dict. cbn [append]. rewrite append_assoc. cbn [append].
    rewrite parse_expr_dict.
    now rewrite (@parse_pairs_all items Hback Hlit fuel rest) by lia.
Qed.

Lemma length_concat_cons (x y : string) (l : list string) :
  String.length (concat ", " (x :: y :: l)) =
    (String.length x + 2 + String.length (concat ", " (y :: l)))%nat.
Proof. cbn [concat]. rewrite !length_app. cbn [String.length]. lia. Qed.

Lemma need_items_bound (items : list pyval) :
  Forall (fun v => (need v <= String.length (Ref.repr_val v) + 1)%nat) items ->
  (need_items items <= String.length (concat ", " (map Ref.repr_val items)) + 2)%nat.
Proof.
  induction 1 as [|x l Hx Hl IH]; [cbn; lia|].
  cbn [need_items fold_right]. fold (need_items l).
  destruct l as [|y l]; [cbn in *; lia|].
  cbn [map] in *. rewrite length_concat_cons. lia.
Qed.

Lemma need_pairs_bound (items : list (pyval * pyval)) :
  Forall (fun kv => (need (fst kv) <= String.length (Ref.repr_val (fst kv)) + 1)%nat
                    /\ (need (snd kv) <= String.length (Ref.repr_val (snd kv)) + 1)%nat)
         items ->
  (need_pairs items <= String.length (concat ", " (map repr_item items)) + 2)%nat.
Proof.
  induction 1 as [|[k v] l [Hk Hv] Hl IH]; [cbn; lia|].
  cbn [need_pairs fold_right fst snd] in *. fold (need_pairs l).
  assert (Hitem : String.length (repr_item (k, v)) =
                  (String.length (Ref.repr_val k) + 2 + String.length (Ref.repr_val v))%nat)
    by (unfold repr_item; cbn [fst snd]; rewrite !length_app; cbn [String.length]; lia).
  destruct l as [|y l]; [cbn [map concat need_pairs fold_right] in *; lia|].
  cbn [map] in *. rewrite length_concat_cons. lia.
Qed.

Lemma need_bound (v : pyval) :
  is_literal v = true -> (need v <= String.length (Ref.repr_val v) + 1)%nat.
Proof.
  revert v. apply literal_ind; try (intros; cbn [need]; lia).
  - intros items Hall. apply need_items_bound in Hall.
    rewrite repr_val_map_all. cbn [need append String.length]. fold (need_items items).
    rewrite length_app. cbn [String.length]. lia.
  - intros items Hall. pose proof (need_items_bound Hall) as Hb.
    rewrite repr_val_tuple. cbn [need]. fold (need_items items).
    destruct items as [|x [|y l]]; cbn [append String.length]; rewrite ?length_app;
      cbn [String.length map concat need_items fold_right] in *; lia.
  - intros items Hall. apply need_pairs_bound in Hall.
    rewrite repr_val_dict. cbn [need append String.length]. fold (need_pairs items).
    rewrite length_app. cbn [String.length]. lia.
Qed.

(** [literal_eval(repr(v)) == v] for every literal value. *)
Lemma literal_eval_repr_val (v : pyval) :
  is_literal v = true -> Ref.literal_eval (PStr (Ref.repr_val v)) = Ok v.
Proof.
  intros Hv. unfold Ref.literal_eval.
  pose proof (need_bound v Hv) as Hb.
  pose proof (@parse_expr_repr_val v Hv (2 * String.length (Ref.repr_val v) + 2)%nat ""
                ltac:(lia) eq_refl) as Hparse.
  rewrite append_empty in Hparse. now rewrite Hparse.
Qed.

Lemma list_ascii_app (a b : string) :
  list_ascii_of_string (a ++ b) = list_ascii_of_string a ++ list_ascii_of_string b.
Proof. induction a as [|c a IH]; [reflexivity|]. cbn. now rewrite IH. Qed.

Lemma reverse_snoc (s : string) (c : ascii) :
  Ref.reverse (s ++ String c "") = String c (Ref.reverse s).
Proof.
  unfold Ref.reverse. rewrite list_ascii_app, rev_app_distr. reflexivity.
Qed.

Lemma reverse_reverse (s : string) : Ref.reverse (Ref.reverse s) = s.
Proof.
  unfold Ref.reverse.
  now rewrite list_ascii_of_string_of_list_ascii, rev_involutive,
    string_of_list_ascii_of_string.
Qed.

(** A text that begins and ends with characters that are no white space is
    its own [strip]. *)
Lemma strip_id (s r s' : string) (c d : ascii) :
  s = String c r -> Ref.is_space c = false ->
  s = (s' ++ String d "")%string -> Ref.is_space d = false ->
  Ref.strip s = s.
Proof.
  intros Hhead Hc Hlast Hd. unfold Ref.strip.
  assert (H1 : Ref.lstrip s = s) by (rewrite Hhead; cbn [Ref.lstrip]; now rewrite Hc).
  rewrite H1.
  assert (H2 : Ref.lstrip (Ref.reverse s) = Ref.reverse s)
    by (rewrite Hlast, reverse_snoc; cbn [Ref.lstrip]; now rewrite Hd).
  rewrite H2. apply reverse_reverse.
Qed.

Lemma string_of_uint_ends (d : uint) :
  d <> Nil ->
  exists s c, NilEmpty.string_of_uint d = (s ++ String c "")%string
              /\ Ref.is_space c = false.
Proof.
  induction d as [|d IH|d IH|d IH|d IH|d IH|d IH|d IH|d IH|d IH|d IH]; intros Hd;
    [congruence|..].
  all: destruct d as [|d'|d'|d'|d'|d'|d'|d'|d'|d'|d'] eqn:E;
    [ exists ""%string; eexists; split; reflexivity
    | destruct IH as (s & c & Hs & Hc); [discriminate|];
      cbn [NilEmpty.string_of_uint] in *; rewrite Hs;
      eexists (String _ s), c; split; [reflexivity | exact Hc] .. ].
Qed.

(** The repr of a literal value ends with a character that is no white
    space. *)
Lemma repr_val_ends (v : pyval) :
  is_literal v = true ->
  exists s c, Ref.repr_val v = (s ++ String c "")%string /\ Ref.is_space c = false.
Proof.
  destruct v as [| [] | [|p|p] | s | | | | | | | | | | ]; intros Hv; try discriminate Hv.
  - exists "Non"%string, "e"%char. split; reflexivity.
  - exists "Tru"%string, "e"%char. split; reflexivity.
  - exists "Fals"%string, "e"%char. split; reflexivity.
  - exists ""%string, "0"%char. split; reflexivity.
  - change (Ref.repr_val (PInt (Z.pos p))) with (Ref.repr_int (Z.pos p)).
    rewrite repr_int_pos.
    apply string_of_uint_ends, DecimalPos.Unsigned.to_uint_nonnil.
  - change (Ref.repr_val (PInt (Z.neg p))) with (Ref.repr_int (Z.neg p)).
    rewrite repr_int_neg.
    destruct (string_of_uint_ends (DecimalPos.Unsigned.to_uint_nonnil p))
      as (s & c & Hs & Hc).
    rewrite Hs. exists (String "-" s), c. split; [reflexivity | exact Hc].
  - cbn [Ref.repr_val]. unfold Ref.repr_str.
    destruct (Ref.contains "'" s && negb (Ref.contains Ref.quote2 s));
      eexists; eexists; split; reflexivity.
  - rewrite repr_val_map_all. rewrite <- append_assoc.
    eexists; eexists; split; reflexivity.
  - rewrite repr_val_tuple. destruct items as [|x [|y l]].
    + exists "("%string, ")"%char. split; reflexivity.
    + exists ("(" ++ Ref.repr_val x ++ ",")%string, ")"%char. split; [|reflexivity].
      cbn [append]. f_equal. now rewrite append_assoc.
    + rewrite <- append_assoc. eexists; eexists; split; reflexivity.
  - rewrite repr_val_dict. rewrite <- append_assoc.
    eexists; eexists; split; reflexivity.
Qed.

Lemma strip_repr_val (v : pyval) :
  is_literal v = true -> Ref.strip (Ref.repr_val v) = Ref.repr_val v.
Proof.
  intros Hv.
  destruct (repr_val_begins v Hv) as (c & r & Hhead & Hc).
  destruct (repr_val_ends v Hv) as (s' & d & Hlast & Hd).
  unfold begins_literal in Hc. repeat (apply andb_true_iff in Hc as [Hc _]).
  apply negb_true_iff in Hc.
  eapply strip_id; eassumption.
Qed.

Lemma contains_app (c : ascii) (a b : string) :
  Ref.contains c (a ++ b) = Ref.contains c a || Ref.contains c b.
Proof.
  induction a as [|x a IH]; [reflexivity|]. cbn [append Ref.contains].
  now rewrite IH, orb_assoc.
Qed.

Lemma contains_concat (c : ascii) (l : list string) :
  Ref.contains c ", " = false ->
  Forall (fun s => Ref.contains c s = false) l ->
  Ref.contains c (concat ", " l) = false.
Proof.
  intros Hsep. induction 1 as [|x l Hx Hl IH]; [reflexivity|].
  destruct l as [|y l]; [exact Hx|].
  change (concat ", " (x :: y :: l)) with (x ++ ", " ++ concat ", " (y :: l))%string.
  now rewrite !contains_app, Hx, Hsep, IH.
Qed.

Lemma repr_char_no_NUL (q c : ascii) (tail : string) :
  q = "'"%char \/ q = Ref.quote2 ->
  Ref.contains NUL (Ref.repr_char q c ++ tail) = Ref.contains NUL tail.
Proof.
  intros [-> | ->];
    destruct c as [[] [] [] [] [] [] [] []]; reflexivity.
Qed.

Lemma repr_str_no_NUL (s : string) : Ref.contains NUL (Ref.repr_str s) = false.
Proof.
  unfold Ref.repr_str.
  set (q := if Ref.contains "'" s && negb (Ref.contains Ref.quote2 s)
            then Ref.quote2 else "'"%char).
  assert (Hq : q = "'"%char \/ q = Ref.quote2)
    by (unfold q; destruct (_ && _); auto).
  clearbody q.
  assert (Hbody : forall tail,
    Ref.contains NUL (concat "" (map (Ref.repr_char q) (list_ascii_of_string s)) ++ tail)
    = Ref.contains NUL tail).
  { intros tail. induction s as [|c s IH]; [reflexivity|].
    cbn [list_ascii_of_string map]. rewrite concat_cons, append_assoc.
    now rewrite repr_char_no_NUL, IH. }
  change (Ref.contains NUL
            (String q (concat "" (map (Ref.repr_char q) (list_ascii_of_string s))
                         ++ String q "")) = false).
  cbn [Ref.contains]. rewrite Hbody. destruct Hq; subst q; reflexivity.
Qed.

Lemma string_of_uint_no_NUL (d : uint) :
  Ref.contains NUL (NilEmpty.string_of_uint d) = false.
Proof.
  induction d as [|d IH|d IH|d IH|d IH|d IH|d IH|d IH|d IH|d IH|d IH];
    [reflexivity | exact IH ..].
Qed.

Lemma repr_val_no_NUL (v : pyval) :
  is_literal v = true -> Ref.contains NUL (Ref.repr_val v) = false.
Proof.
  revert v. apply literal_ind.
  - reflexivity.
  - intros []; reflexivity.
  - intros [|p|p].
    + reflexivity.
    + change (Ref.repr_val (PInt (Z.pos p))) with (Ref.repr_int (Z.pos p)).
      rewrite repr_int_pos. apply string_of_uint_no_NUL.
    + change (Ref.repr_val (PInt (Z.neg p))) with (Ref.repr_int (Z.neg p)).
      rewrite repr_int_neg. apply string_of_uint_no_NUL.
  - intros s. apply repr_str_no_NUL.
  - intros items Hall. rewrite repr_val_map_all, !contains_app.
    rewrite contains_concat; [reflexivity | reflexivity |].
    now apply Forall_map.
  - intros items Hall. rewrite repr_val_tuple.
    destruct items as [|x [|y l]].
    + reflexivity.
    + apply Forall_inv in Hall. now rewrite !contains_app, Hall.
    + rewrite !contains_app.
      rewrite contains_concat; [reflexivity | reflexivity |].
      now apply Forall_map.
  - intros items Hall. rewrite repr_val_dict, !contains_app.
    rewrite contains_concat; [reflexivity | reflexivity |].
    apply Forall_map. eapply Forall_impl; [|exact Hall].
    intros [k v] [Hk Hv]. unfold repr_item. cbn [fst snd] in *.
    now rewrite !contains_app, Hk, Hv.
Qed.

Lemma charfield_clean_repr_val (v : pyval) :
  is_literal v = true ->
  Ref.charfield_clean (PStr (Ref.repr_val v)) = Ok (PStr (Ref.repr_val v)).
Proof.
  intros Hv. unfold Ref.charfield_clean.
  destruct (repr_val_begins v Hv) as (c & r & E & _).
  rewrite strip_repr_val by assumption.
  pose proof (repr_val_no_NUL v Hv) as Hnul. unfold NUL in Hnul. rewrite Hnul.
  now rewrite E.
Qed.

Ltac run := unfold bind, lib, ret, raise, try_except, try_except_else; cbn beta iota.

(** The repr of a literal value is cleaned to the value. *)
Lemma clean_repr_val (v : pyval) (t : trace) :
  is_literal v = true ->
  fst (@clean Ref.runtime (PStr (Ref.repr_val v)) t) = Ok v.
Proof.
  intros Hv. unfold clean. run.
  change (@charfield_clean Ref.runtime) with Ref.charfield_clean.
  change (@strip Ref.runtime) with Ref.strip.
  change (@literal_eval Ref.runtime) with Ref.literal_eval.
  rewrite charfield_clean_repr_val, strip_repr_val by assumption.
  destruct (repr_val_begins v Hv) as (c & r & E & _).
  rewrite E at 1. rewrite literal_eval_repr_val by assumption. reflexivity.
Qed.

(** What [clean] makes of a text does not depend on the calls made before. *)
Lemma clean_fst (value : pyval) (t t' : trace) :
  fst (@clean Ref.runtime value t) = fst (@clean Ref.runtime value t').
Proof.
  unfold clean. run.
  destruct (@charfield_clean Ref.runtime value) as [cleaned|e]; [|reflexivity].
  match goal with
  | |- context [@literal_eval Ref.runtime ?x] =>
      destruct (@literal_eval Ref.runtime x) as [u|e]; [reflexivity|];
      destruct (is_ValueError_or_SyntaxError e); [|reflexivity];
      destruct (@repr Ref.runtime x) as [quoted|e'];
        [destruct (@literal_eval Ref.runtime (PStr quoted)) as [u|e'']; [reflexivity|];
         destruct (is_ValueError_or_SyntaxError e''); reflexivity
        |destruct (is_ValueError_or_SyntaxError e'); reflexivity]
  end.
Qed.

(** What the widget shows for a value whose repr evaluates to it. *)
Lemma render_shown (name : string) (value : pyval) (attrs : option pydict) (t : trace) :
  Ref.literal_eval (PStr (Ref.repr_val value)) = Ok value ->
  exists t', @render Ref.runtime RefForms.shown name value attrs t =
               (Ok (RefForms.shown_text value), t').
Proof.
  intros Hback. unfold render. run.
  change (@repr Ref.runtime value) with (Ok (Ref.repr_val value)). cbv iota.
  change (@literal_eval Ref.runtime) with Ref.literal_eval. rewrite Hback.
  eexists. reflexivity.
Qed.

Lemma value_from_datadict_posted (name : string) (text : string) :
  value_from_datadict [(name, PStr text)] [] name = PStr text.
Proof. unfold value_from_datadict. cbn [dict_get]. now rewrite String.eqb_refl. Qed.

Lemma resubmit_literal (name : string) (v : pyval) (attrs : option pydict) (t : trace) :
  is_literal v = true -> isinstance_str v = false ->
  fst (resubmit name v attrs t) = Ok v.
Proof.
  intros Hv Hstr. unfold resubmit. unfold bind at 1.
  destruct (@render_shown name v attrs t (literal_eval_repr_val v Hv)) as (t' & ->).
  rewrite value_from_datadict_posted.
  destruct v; try discriminate; try (apply clean_repr_val; assumption).
  reflexivity.
Qed.

Lemma resubmit_text (name : string) (s : string) (attrs : option pydict) (t : trace) :
  fst (resubmit name (PStr s) attrs t) = fst (@clean Ref.runtime (PStr s) []).
Proof.
  unfold resubmit. unfold bind at 1.
  destruct (@render_shown name (PStr s) attrs t (literal_eval_repr_str s)) as (t' & ->).
  rewrite value_from_datadict_posted. apply clean_fst.
Qed.

End LiteralFacts.

(** ** The codec and the field *)

Section Properties.

Context {rt : Runtime}.

Local Open Scope list_scope.

Import Base64Facts.

Ltac run := unfold bind, lib, ret, raise, try_except, try_except_else; cbn beta iota.

(** What [dbsafe_encode] returns for a value whose copy [copied] is written
    as [b] by the pickler. *)
Lemma dbsafe_encode_copied value copied (compress_object : bool) pickle_protocol (b z : bytes) t :
  deepcopy value = Ok copied ->
  dumps copied pickle_protocol = Ok b ->
  compress b = Ok z ->
  dbsafe_encode value compress_object pickle_protocol t =
    (Ok (PickledObject (text_of (if compress_object then z else b))),
     [B64encode (if compress_object then z else b)]
       ++ (if compress_object then [Compress b] else [])
       ++ [Dumps copied pickle_protocol; Deepcopy value] ++ t).
Proof.
  intros Hcopy Hdumps Hz. unfold dbsafe_encode. run.
  rewrite Hcopy, Hdumps.
  destruct compress_object; run; rewrite ?Hz, bytes_decode_b64encode; reflexivity.
Qed.

(** What [dbsafe_decode] returns on the text of bytes that decompress to a
    pickle of [v]. *)
Lemma dbsafe_decode_text_of value (compress_object : bool) (b z : bytes) v t :
  str_encode value = Ok (Base64.b64encode (if compress_object then z else b)) ->
  decompress z = Ok b ->
  loads b = Ok v ->
  fst (dbsafe_decode value compress_object t) = Ok v.
Proof.
  intros Henc Hz Hloads. unfold dbsafe_decode. run.
  rewrite Henc, b64decode_b64encode.
  destruct compress_object; run; rewrite ?Hz, Hloads; reflexivity.
Qed.

(** [dbsafe_encode] answers with a [PickledObject] or raises. *)
Lemma dbsafe_encode_PickledObject value compress_object pickle_protocol t r t' :
  dbsafe_encode value compress_object pickle_protocol t = (Ok r, t') ->
  isinstance_PickledObject r = true.
Proof.
  unfold dbsafe_encode. run.
  destruct (deepcopy value) as [copied|e].
  2: destruct (is_CopyError e); [destruct (pack_dbobj value) as [copied|e']|];
       try discriminate.
  all: destruct (dumps copied pickle_protocol) as [b|]; try discriminate.
  all: destruct compress_object; run.
  all: try (destruct (compress b) as [z|]; try discriminate).
  all: match goal with
       | |- context [bytes_decode ?x] => destruct (bytes_decode x); try discriminate
       end.
  all: intros H; injection H as <- _; reflexivity.
Qed.

(** C1. Round trip: for every serializable value and every compress flag,
    [dbsafe_encode] returns a [PickledObject] whose text, decoded with the
    same flag, is the value again; the text decodes to the same value when it
    comes back from storage as a plain str. *)
Theorem dbsafe_decode_dbsafe_encode (v : pyval) (c : bool) (p : Z) (t : trace) :
  serializable v p ->
  exists text t',
    dbsafe_encode v c p t = (Ok (PickledObject text), t')
    /\ forall t0,
         fst (dbsafe_decode (PickledObject text) c t0) = Ok v
         /\ fst (dbsafe_decode (PStr text) c t0) = Ok v.
Proof.
  intros (b & z & Hcopy & Hdumps & Hloads & Hz & Hunz).
  eexists. eexists. split.
  - eapply dbsafe_encode_copied; eassumption.
  - intros t0.
    destruct (str_encode_text_of (if c then z else b)) as [H1 H2].
    split; eapply dbsafe_decode_text_of; eauto.
Qed.

(** C2. Read path, decoding fails: a text tagged as an encoded payload lets
    the error through; any other value, a plain text of unknown provenance
    in particular, is returned as it is. *)
Theorem from_db_value_decode_failure (self : PickledObjectField) (value : pyval)
        (e : exn) (t t' : trace) :
  is_None value = false ->
  dbsafe_decode value (compress_ self) t = (Raise e, t') ->
  from_db_value self value t =
    if isinstance_PickledObject value then (Raise e, t') else (Ok value, t').
Proof.
  intros Hnone Hfail. unfold from_db_value. rewrite Hnone. cbn [negb].
  unfold try_except_else. rewrite Hfail. cbn [is_Exception].
  destruct (isinstance_PickledObject value); reflexivity.
Qed.

Lemma mem_string_In (x : string) (l : list string) :
  mem_string x l = true <-> In x l.
Proof.
  unfold mem_string. rewrite existsb_exists. split.
  - intros (y & Hy & Heq). apply String.eqb_eq in Heq. now subst.
  - intros H. exists x. split; [assumption | apply String.eqb_refl].
Qed.

(** C3. Lookup restriction: a lookup kind other than exact, in and isnull
    raises at once, with no call made.  For the three kinds the method makes
    one call, to [get_db_prep_lookup] of the base class, and answers with its
    outcome; under the Django of the repository the base class has no such
    method, so each of the three kinds raises AttributeError, for every field
    and every value. *)
Theorem get_db_prep_lookup_restricted (self : PickledObjectField)
        (lookup_type : string) (value : pyval) (t : trace) :
  (~ In lookup_type ["exact"; "in"; "isnull"] ->
   get_db_prep_lookup self lookup_type value t =
     (Raise (TypeError ("Lookup type " ++ lookup_type ++ " is not supported.")%string), t))
  /\ (In lookup_type ["exact"; "in"; "isnull"] ->
      get_db_prep_lookup self lookup_type value t =
        (field_get_db_prep_lookup lookup_type value,
         FieldGetDbPrepLookup lookup_type value :: t)
      /\ @get_db_prep_lookup Ref.runtime self lookup_type value t =
           (Raise (AttributeError "get_db_prep_lookup"),
            FieldGetDbPrepLookup lookup_type value :: t)).
Proof.
  unfold get_db_prep_lookup.
  destruct (mem_string lookup_type supported_lookups) eqn:Hmem.
  - apply mem_string_In in Hmem. split; [contradiction | split; reflexivity].
  - split; [reflexivity|]. intros H. apply mem_string_In in H.
    unfold supported_lookups in Hmem. congruence.
Qed.

Ltac simp :=
  run; rewrite ?bytes_decode_b64encode; run; cbn [isinstance_str]; run.

(** Every branch of a computation, one library outcome after another. *)
Ltac branches :=
  repeat (simp;
          match goal with
          | |- context [match ?x with _ => _ end] =>
              lazymatch x with
              | context [match _ with _ => _ end] => fail
              | _ => destruct x
              end
          end);
  simp.

(** C4, amended.  None is stored and read back with no call to the codec;
    every other value that is not yet an encoded payload, the empty ones
    included, goes through the codec: the deep copy is always asked for; when
    the copy, the pickler and the compression answer, what is stored is the
    base64 text of the pickle of the copy (compressed when the field says
    so), after exactly those calls; and whatever is stored is such a text, of
    the pickle of the copy or of the packed value. *)
Theorem absent_value_short_circuit (self : PickledObjectField) (t : trace) :
  get_db_prep_value self PNone t = (Ok PNone, t)
  /\ from_db_value self PNone t = (Ok PNone, t)
  /\ forall v, is_None v = false -> isinstance_PickledObject v = false ->
       (exists r t', get_db_prep_value self v t = (r, t') /\ In (Deepcopy v) t')
       /\ (forall copied (pickled payload : bytes),
             deepcopy v = Ok copied ->
             dumps copied (protocol self) = Ok pickled ->
             (if compress_ self then compress pickled else Ok pickled) = Ok payload ->
             get_db_prep_value self v t =
               (Ok (PickledObject (text_of payload)),
                [B64encode payload]
                  ++ (if compress_ self then [Compress pickled] else [])
                  ++ [Dumps copied (protocol self); Deepcopy v] ++ t))
       /\ (forall r t', get_db_prep_value self v t = (Ok r, t') ->
             exists copied (pickled payload : bytes),
               (deepcopy v = Ok copied
                \/ (deepcopy v = Raise CopyError /\ pack_dbobj v = Ok copied))
               /\ dumps copied (protocol self) = Ok pickled
               /\ (if compress_ self then compress pickled else Ok pickled) = Ok payload
               /\ r = PickledObject (text_of payload)
               /\ In (Dumps copied (protocol self)) t'
               /\ In (B64encode payload) t').
Proof.
  split; [reflexivity|]. split; [reflexivity|].
  intros v Hnone Hpickled. unfold get_db_prep_value. rewrite Hnone, Hpickled.
  cbn [negb andb]. split; [|split].
  - unfold dbsafe_encode, force_str. branches.
    all: do 2 eexists; split; [reflexivity | simpl; tauto].
  - intros copied pickled payload Hcopy Hdumps Hpayload.
    unfold dbsafe_encode, force_str. run. rewrite Hcopy, Hdumps.
    destruct (compress_ self); run.
    + rewrite Hpayload, bytes_decode_b64encode. reflexivity.
    + injection Hpayload as <-. rewrite bytes_decode_b64encode. reflexivity.
  - intros r t'. unfold dbsafe_encode, force_str. run.
    destruct (deepcopy v) as [copied|e] eqn:Hcopy.
    2: destruct e; cbn [is_CopyError]; try discriminate;
       destruct (pack_dbobj v) as [copied|e'] eqn:Hpack; [|discriminate].
    all: destruct (dumps copied (protocol self)) as [pickled|] eqn:Hdumps;
           [|discriminate].
    all: destruct (compress_ self); run.
    all: try (destruct (compress pickled) as [z|] eqn:Hz; [|discriminate]).
    all: rewrite bytes_decode_b64encode; run; cbn [isinstance_str].
    all: intros H; injection H as <- <-.
    all: do 3 eexists; repeat split; try eassumption; eauto; simpl; tauto.
Qed.

(** C5, amended.  The admin form round on the reference runtime: a literal
    value that is not a str (None, a bool, an int, a list, tuple or dict of
    literal values) is shown as its repr, and submitting what is shown gives
    the identical value back; a str is shown without its quotes, so what
    comes back is what [clean] makes of the bare text.  And [clean] on any
    runtime: a text that is a literal gives its value; a text that is not a
    literal is not refused, the form falls through to the repr of the text
    and returns what that evaluates to, the text itself; the validation
    error is raised only when the repr does not evaluate either. *)
Theorem clean_literal_or_text (submitted : pyval) (text : string) (t : trace) :
  (forall name v attrs t0,
     is_literal v = true -> isinstance_str v = false ->
     fst (resubmit name v attrs t0) = Ok v)
  /\ (forall name s attrs t0,
        single_line s = true ->
        fst (resubmit name (PStr s) attrs t0) = fst (@clean Ref.runtime (PStr s) []))
  /\ (charfield_clean submitted = Ok (PStr text) ->
      strip text <> EmptyString ->
      (forall v, literal_eval (PStr text) = Ok v -> fst (clean submitted t) = Ok v)
      /\ (forall e quoted,
            literal_eval (PStr text) = Raise e ->
            is_ValueError_or_SyntaxError e = true ->
            repr (PStr text) = Ok quoted ->
            (forall v, literal_eval (PStr quoted) = Ok v ->
                       fst (clean submitted t) = Ok v)
            /\ (forall e', literal_eval (PStr quoted) = Raise e' ->
                           is_ValueError_or_SyntaxError e' = true ->
                           fst (clean submitted t) =
                             Raise (ValidationError invalid_message)))).
Proof.
  split; [|split].
  - intros name v attrs t0. apply LiteralFacts.resubmit_literal.
  - intros name s attrs t0 _. apply LiteralFacts.resubmit_text.
  - intros Hclean Hstrip. unfold clean. run. rewrite Hclean.
    destruct (strip text) eqn:Hs; [congruence|]. run. split.
    + intros v Hv. now rewrite Hv.
    + intros e quoted He Hcaught Hrepr. rewrite He, Hcaught, Hrepr. split.
      * intros v Hv. now rewrite Hv.
      * intros e' He' Hcaught'. now rewrite He', Hcaught'.
Qed.

(** C6. Conflict guard: a value with the reserved hook or a callable value
    is wrapped, the wrapper holding exactly the value; what the write path
    stores for the wrapped value reads back as the value itself; a value
    with neither property is not wrapped. *)
Theorem wrap_conflictual_object_roundtrip (self : PickledObjectField) (v : pyval)
        (t : trace) :
  hasattr v "prepare_database_save" || callable v = true ->
  serializable (_ObjectWrapper v) (protocol self) ->
  wrap_conflictual_object v = _ObjectWrapper v
  /\ (exists text t',
        get_db_prep_value self (pre_save v) t = (Ok (PickledObject text), t')
        /\ forall t0,
             fst (from_db_value self (PickledObject text) t0) = Ok v
             /\ fst (from_db_value self (PStr text) t0) = Ok v)
  /\ (forall u, hasattr u "prepare_database_save" || callable u = false ->
                wrap_conflictual_object u = u).
Proof.
  intros Hwrap (b & z & Hcopy & Hdumps & Hloads & Hz & Hunz).
  assert (Hw : wrap_conflictual_object v = _ObjectWrapper v)
    by (unfold wrap_conflictual_object; now rewrite Hwrap).
  split; [assumption|]. split.
  - unfold pre_save. rewrite Hw. unfold get_db_prep_value. cbn [is_None negb andb
      isinstance_PickledObject]. unfold bind at 1.
    rewrite (@dbsafe_encode_copied _ _ (compress_ self) _ _ _ t Hcopy Hdumps Hz).
    unfold force_str. cbn [isinstance_str]. run.
    eexists. eexists. split; [reflexivity|].
    intros t0.
    destruct (str_encode_text_of (if compress_ self then z else b)) as [H1 H2].
    unfold from_db_value, try_except_else. cbn [is_None negb].
    pose proof (@dbsafe_decode_text_of _ (compress_ self) b z _ t0 H1 Hunz Hloads) as D1.
    pose proof (@dbsafe_decode_text_of _ (compress_ self) b z _ t0 H2 Hunz Hloads) as D2.
    destruct (dbsafe_decode (PickledObject _) _ t0) as [r1 t1].
    destruct (dbsafe_decode (PStr _) _ t0) as [r2 t2].
    cbn [fst] in D1, D2. subst r1 r2. split; reflexivity.
  - intros u Hu. unfold wrap_conflictual_object. now rewrite Hu.
Qed.

(** C7, amended.  When the deep copy raises copy.Error the value is packed by
    [pack_dbobj] and the packed value is encoded: the copy error does not
    reach the caller.  A deep copy that fails with another exception is not
    caught: the exception reaches the caller and nothing is packed. *)
Theorem dbsafe_encode_copy_failure (value : pyval) (c : bool) (p : Z) (t : trace) :
  (deepcopy value = Raise CopyError ->
   forall packed (b z : bytes),
     pack_dbobj value = Ok packed -> dumps packed p = Ok b -> compress b = Ok z ->
     dbsafe_encode value c p t =
       (Ok (PickledObject (text_of (if c then z else b))),
        [B64encode (if c then z else b)]
          ++ (if c then [Compress b] else [])
          ++ [Dumps packed p; PackDbobj value; Deepcopy value] ++ t))
  /\ (forall e, deepcopy value = Raise e -> is_CopyError e = false ->
        dbsafe_encode value c p t = (Raise e, Deepcopy value :: t)).
Proof.
  split.
  - intros Hcopy packed b z Hpack Hdumps Hz. unfold dbsafe_encode. run.
    rewrite Hcopy. cbn [is_CopyError]. rewrite Hpack, Hdumps.
    destruct c; run; rewrite ?Hz, bytes_decode_b64encode; reflexivity.
  - intros e Hcopy He. unfold dbsafe_encode. run. now rewrite Hcopy, He.
Qed.

(** C9. Default resolution: a callable default is called each time a default
    is asked for, so a second request calls it again, after the first; any
    other default is returned as it is, with no call to the codec or to
    anything else. *)
Theorem get_default_resolution (self : PickledObjectField) (d : pyval) (t : trace) :
  default self = Some d ->
  (callable d = true ->
   get_default self t = (call d t, Call d :: t)
   /\ get_default self (Call d :: t) = (call d (Call d :: t), Call d :: Call d :: t))
  /\ (callable d = false -> get_default self t = (Ok d, t)).
Proof.
  intros Hd. unfold get_default. rewrite Hd.
  split; intros ->; [split|]; reflexivity.
Qed.

(** C10. The write path is idempotent: None and an encoded payload are
    returned as they are; [dbsafe_encode] answers with a [PickledObject];
    so converting a converted value changes nothing and calls nothing. *)
Theorem get_db_prep_value_idempotent (self : PickledObjectField) (v : pyval)
        (t : trace) :
  (is_None v || isinstance_PickledObject v = true ->
   get_db_prep_value self v t = (Ok v, t))
  /\ (forall c p r t', dbsafe_encode v c p t = (Ok r, t') ->
                       isinstance_PickledObject r = true)
  /\ (value <- get_db_prep_value self v ;; get_db_prep_value self value) t
     = get_db_prep_value self v t.
Proof.
  assert (Hfix : forall u t0, is_None u || isinstance_PickledObject u = true ->
                              get_db_prep_value self u t0 = (Ok u, t0)).
  { intros u t0 Hu. unfold get_db_prep_value.
    apply orb_true_iff in Hu as [-> | ->]; cbn [negb andb];
      rewrite ?andb_false_r; reflexivity. }
  split; [apply Hfix|]. split; [intros c p r t'; apply dbsafe_encode_PickledObject|].
  unfold bind at 1.
  destruct (get_db_prep_value self v t) as [[r|e] t'] eqn:Hg; [|reflexivity].
  apply Hfix. revert Hg. unfold get_db_prep_value.
  destruct (negb (is_None v) && negb (isinstance_PickledObject v)) eqn:Hv.
  - unfold bind.
    destruct (dbsafe_encode v (compress_ self) (protocol self) t) as [[enc|e] t1] eqn:He;
      [|discriminate].
    apply dbsafe_encode_PickledObject in He.
    destruct enc; try discriminate. unfold force_str. cbn [isinstance_str]. run.
    intros H; injection H as <- _. apply orb_true_r.
  - run. intros H; injection H as <- _.
    destruct (is_None v), (isinstance_PickledObject v); try discriminate; reflexivity.
Qed.

End Properties.

(** ** The theorems on the reference runtime *)

Module ScenarioFacts.

Import Scenarios.

Local Open Scope list_scope.

Ltac serializable_by_running :=
  unfold serializable;
  match goal with
  | |- exists b z, _ /\ @dumps ?rt ?v ?p = _ /\ _ =>
      let b := eval vm_compute in
        (match @dumps rt v p with Ok b => b | Raise _ => [] end) in
      let z := eval vm_compute in
        (match @compress rt b with Ok z => z | Raise _ => [] end) in
      exists b, z; repeat split; vm_compute; reflexivity
  end.

(** The mapping of the admin scenario round-trips, compressed. *)
Lemma mapping_round_trip :
  exists text t',
    @dbsafe_encode Ref.runtime mapping true 4 [] = (Ok (PickledObject text), t')
    /\ forall t0,
         fst (@dbsafe_decode Ref.runtime (PickledObject text) true t0) = Ok mapping
         /\ fst (@dbsafe_decode Ref.runtime (PStr text) true t0) = Ok mapping.
Proof.
  apply (@dbsafe_decode_dbsafe_encode Ref.runtime mapping true 4 []).
  serializable_by_running.
Defined.

(** The legacy text [hello] is no base64 of anything: read as plain text it
    comes back as it is, read as a tagged payload the error gets through. *)
Lemma legacy_text_returned :
  @from_db_value Ref.runtime plain (PStr "hello") [] =
    (Ok (PStr "hello"), [B64decode (list_byte_of_string "hello")])
  /\ exists e,
       @from_db_value Ref.runtime plain (PickledObject "hello") [] =
         (Raise e, [B64decode (list_byte_of_string "hello")]).
Proof.
  split.
  - apply (@from_db_value_decode_failure Ref.runtime plain (PStr "hello")
             (BinasciiError "Invalid base64-encoded string: number of data characters cannot be 1 more than a multiple of 4")
             [] [B64decode (list_byte_of_string "hello")]); reflexivity.
  - eexists.
    apply (@from_db_value_decode_failure Ref.runtime plain (PickledObject "hello")
             _ [] [B64decode (list_byte_of_string "hello")]); reflexivity.
Defined.

(** A substring lookup is refused with no call made; an exact lookup, a
    permitted one, raises AttributeError out of the call to the base class. *)
Lemma contains_lookup_refused :
  @get_db_prep_lookup Ref.runtime plain "contains" (PStr "x") [] =
    (Raise (TypeError "Lookup type contains is not supported."), [])
  /\ @get_db_prep_lookup Ref.runtime plain "exact" (PStr "x") [] =
       (Raise (AttributeError "get_db_prep_lookup"),
        [FieldGetDbPrepLookup "exact" (PStr "x")]).
Proof.
  split.
  - apply (proj1 (@get_db_prep_lookup_restricted Ref.runtime plain "contains" (PStr "x") [])).
    intros [H | [H | [H | []]]]; discriminate H.
  - apply (proj2 (@get_db_prep_lookup_restricted Ref.runtime plain "exact" (PStr "x") []));
      left; reflexivity.
Defined.

(** C4, the claim fails: the empty text is an empty value, and the write
    path pickles and encodes it. *)
Lemma empty_text_is_encoded :
  empty_value (PStr "") = true
  /\ @get_db_prep_value Ref.runtime plain (PStr "") [] =
       (Ok (PickledObject "gASVBAAAAAAAAACMAJQu"),
        [B64encode [x80; x04; x95; x04; x00; x00; x00; x00; x00; x00; x00;
                    x8c; x00; x94; x2e];
         Dumps (PStr "") 4; Deepcopy (PStr "")]).
Proof. split; vm_compute; reflexivity. Qed.

(** The empty list goes through the codec too: what is stored for it is the
    base64 text of its pickle. *)
Lemma empty_list_goes_through_codec :
  @get_db_prep_value Ref.runtime plain (PList []) [] =
    (Ok (PickledObject "gARdlC4="),
     [B64encode [x80; x04; x5d; x94; x2e]; Dumps (PList []) 4; Deepcopy (PList [])]).
Proof.
  refine (proj1 (proj2 (proj2 (proj2 (@absent_value_short_circuit Ref.runtime plain []))
                          (PList []) _ _))
                (PList []) [x80; x04; x5d; x94; x2e] [x80; x04; x5d; x94; x2e]
                _ _ _); reflexivity.
Defined.

(** C5, the claim fails, in both halves.  The str 123 is shown without
    quotes, and what is shown comes back as the int 123, not as the str.
    The text of the scenario is not a literal, and the form returns it as a
    str instead of raising a validation error. *)
Lemma not_valid_syntax_is_accepted :
  fst (resubmit "db_value" (PStr "123") None []) = Ok (PInt 123)
  /\ @literal_eval Ref.runtime (PStr "not valid syntax{{{") = Raise SyntaxError
  /\ fst (@clean Ref.runtime (PStr "not valid syntax{{{") []) =
       Ok (PStr "not valid syntax{{{").
Proof. repeat split; vm_compute; reflexivity. Qed.

(** The mapping is shown as its repr and comes back as the mapping; the str
    123 comes back as what its bare text is cleaned to; the repr of the
    mapping is cleaned to the mapping; the text that is not a literal is
    cleaned to itself. *)
Lemma admin_scenario :
  fst (resubmit "db_value" mapping None []) = Ok mapping
  /\ fst (resubmit "db_value" (PStr "123") None []) =
       fst (@clean Ref.runtime (PStr "123") [])
  /\ fst (@clean Ref.runtime (PStr "{'a': 1, 'b': [1, 2, 3]}") []) = Ok mapping
  /\ fst (@clean Ref.runtime (PStr "not valid syntax{{{") []) =
       Ok (PStr "not valid syntax{{{").
Proof.
  pose proof (@clean_literal_or_text Ref.runtime
                (PStr "{'a': 1, 'b': [1, 2, 3]}") "{'a': 1, 'b': [1, 2, 3]}" [])
    as (Hliteral & Htext & Hclean).
  pose proof (@clean_literal_or_text Ref.runtime
                (PStr "not valid syntax{{{") "not valid syntax{{{" [])
    as (_ & _ & Hfall).
  split; [|split; [|split]].
  - apply Hliteral; reflexivity.
  - apply Htext; reflexivity.
  - refine (proj1 (Hclean _ _) mapping _);
      [reflexivity | vm_compute; discriminate | reflexivity].
  - refine (proj1 (proj2 (Hfall _ _) SyntaxError "'not valid syntax{{{'" _ _ _) _ _);
      [reflexivity | vm_compute; discriminate | reflexivity | reflexivity
       | reflexivity | reflexivity].
Defined.

(** The builtin [len] is callable: it is wrapped, stored compressed, and
    read back as [len]. *)
Lemma len_is_wrapped_and_read_back :
  wrap_conflictual_object len_function = _ObjectWrapper len_function
  /\ (exists text t',
        @get_db_prep_value Ref.runtime compressed (pre_save len_function) [] =
          (Ok (PickledObject text), t')
        /\ forall t0,
             fst (@from_db_value Ref.runtime compressed (PickledObject text) t0) = Ok len_function
             /\ fst (@from_db_value Ref.runtime compressed (PStr text) t0) = Ok len_function)
  /\ (forall u, hasattr u "prepare_database_save" || callable u = false ->
                wrap_conflictual_object u = u).
Proof.
  apply (@wrap_conflictual_object_roundtrip Ref.runtime compressed len_function []).
  - reflexivity.
  - serializable_by_running.
Defined.

(** C7, the claim fails: a lock cannot be deep-copied, the failure is a
    TypeError, and [dbsafe_encode] lets it through without packing. *)
Lemma lock_copy_failure_propagates :
  @deepcopy Ref.runtime lock = Raise (TypeError "cannot pickle '_thread.lock' object")
  /\ @dbsafe_encode Ref.runtime lock false 4 [] =
       (Raise (TypeError "cannot pickle '_thread.lock' object"), [Deepcopy lock]).
Proof. split; vm_compute; reflexivity. Qed.

(** A database model raises copy.Error: it is packed and the placeholder is
    encoded. *)
Lemma model_is_packed :
  @dbsafe_encode Ref.runtime model false 4 [] =
    (Ok (PickledObject (text_of packed_model_pickle)),
     [B64encode packed_model_pickle]
       ++ [] ++ [Dumps packed_model 4; PackDbobj model; Deepcopy model] ++ [])
  /\ text_of packed_model_pickle =
       "gASVIwAAAAAAAACMEF9fcGFja2VkX2Rib2JqX1+UjAhvYmplY3RkYpRLB4eULg=="%string
  /\ @dbsafe_encode Ref.runtime lock false 4 [] =
       (Raise (TypeError "cannot pickle '_thread.lock' object"), [Deepcopy lock]).
Proof.
  split; [|split].
  - apply (proj1 (@dbsafe_encode_copy_failure Ref.runtime model false 4 [])
             eq_refl packed_model packed_model_pickle packed_model_compressed);
      vm_compute; reflexivity.
  - vm_compute; reflexivity.
  - apply (proj2 (@dbsafe_encode_copy_failure Ref.runtime lock false 4 [])
             (TypeError "cannot pickle '_thread.lock' object")); reflexivity.
Defined.

(** The counting default is called on each request: the first answer is 0,
    the next is 1. *)
Lemma counting_default_called_each_time :
  @get_default Ref.runtime counting [] = (Ok (PInt 0), [Call counter])
  /\ @get_default Ref.runtime counting [Call counter] =
       (Ok (PInt 1), [Call counter; Call counter]).
Proof.
  apply (proj1 (@get_default_resolution Ref.runtime counting counter [] eq_refl) eq_refl).
Defined.

(** An encoded payload is stored as it is, and converting the mapping twice
    is converting it once. *)
Lemma converting_twice :
  @get_db_prep_value Ref.runtime plain (PickledObject "gAROLg==") [] =
    (Ok (PickledObject "gAROLg=="), [])
  /\ (value <- @get_db_prep_value Ref.runtime plain mapping ;;
      @get_db_prep_value Ref.runtime plain value) []
     = @get_db_prep_value Ref.runtime plain mapping [].
Proof.
  destruct (@get_db_prep_value_idempotent Ref.runtime plain (PickledObject "gAROLg==") [])
    as [H _].
  destruct (@get_db_prep_value_idempotent Ref.runtime plain mapping []) as (_ & _ & H').
  split; [apply H; reflexivity | exact H'].
Defined.

End ScenarioFacts.

(** ** Values with identity *)

Module AliasingFacts.

Import Aliasing.

(** C8. Byte stability fails on the pickler of Python 3: the lists [[a, a]]
    and [[a, b]], with [a] and [b] two equal str objects, are equal, and
    after the deep copy, which keeps a str as it is, they are pickled to
    different bytes, so to different texts. *)
Theorem equal_values_encode_differently :
  py_eq 3 same_twice 1 equal_pair 2 = true
  /\ dbsafe_encode same_twice 1 =
       Some (PickledObject "gASVDwAAAAAAAABdlCiMBWhlbGxvlGgBZS4=")
  /\ dbsafe_encode equal_pair 2 =
       Some (PickledObject "gASVFQAAAAAAAABdlCiMBWhlbGxvlIwFaGVsbG+UZS4=").
Proof. repeat split; vm_compute; reflexivity. Qed.

End AliasingFacts.

(** * More properties *)

(** ** Dicts *)

Lemma dict_get_set_same (d : pydict) (key : string) (value : pyval) :
  dict_get (dict_set d key value) key = Some value.
Proof.
  induction d as [|[k v] d IH]; cbn.
  - now rewrite String.eqb_refl.
  - destruct (String.eqb key k) eqn:E; cbn; rewrite E; [reflexivity | exact IH].
Qed.

Lemma dict_get_set_other (d : pydict) (key other : string) (value : pyval) :
  other <> key -> dict_get (dict_set d key value) other = dict_get d other.
Proof.
  intros Hne. apply String.eqb_neq in Hne.
  induction d as [|[k v] d IH]; cbn.
  - now rewrite Hne.
  - destruct (String.eqb key k) eqn:E; cbn.
    + apply String.eqb_eq in E. subst k. now rewrite Hne.
    + now rewrite IH.
Qed.

Lemma split_lines_len_pos (s : string) : 1 <= split_lines_len s.
Proof.
  induction s as [|c s IH]; cbn [split_lines_len]; [lia|]. destruct (Ascii.eqb c LF); lia.
Qed.

Lemma render_rows_pos (value : pyval) (repr_value : string) :
  1 <= render_rows value repr_value.
Proof.
  unfold render_rows. destruct value; try lia; destruct (has_newline repr_value); lia.
Qed.

Section WidgetProperties.

Context {rt : Runtime} {forms : Forms}.

Local Open Scope list_scope.

Ltac run := unfold bind, lib, ret, raise, try_except, try_except_else; cbn beta iota.

(** X1. What [render] hands to the textarea: the attributes carry the name,
    30 columns and a number of rows of at least one, whatever the caller
    passed under those keys, and every other attribute of the caller as it
    was; the value is what its repr evaluates to, or the repr itself when
    that is not a literal; another error of the evaluation gets through. *)
Theorem render_hands_over (name : string) (value : pyval) (attrs : option pydict)
        (repr_value : string) (t : trace) :
  repr value = Ok repr_value ->
  exists final : pydict,
    dict_get final "name" = Some (PStr name)
    /\ dict_get final "cols" = Some (PInt 30)
    /\ (exists rows, dict_get final "rows" = Some (PInt rows) /\ 1 <= rows)
    /\ (forall key, key <> "name"%string -> key <> "cols"%string -> key <> "rows"%string ->
          dict_get final key =
            match attrs with Some given => dict_get given key | None => None end)
    /\ render name value attrs t =
         let t' := LiteralEval (PStr repr_value) :: Repr value :: t in
         match literal_eval (PStr repr_value) with
         | Ok v => (textarea_render name v (build_attrs final), t')
         | Raise e =>
             if is_ValueError_or_SyntaxError e
             then (textarea_render name (PStr repr_value) (build_attrs final), t')
             else (Raise e, t')
         end.
Proof.
  intros Hrepr.
  exists (dict_set
            (dict_set
               match attrs with
               | Some given => dict_set given "name" (PStr name)
               | None => [("name"%string, PStr name)]
               end "cols" (PInt 30))
            "rows" (PInt (render_rows value repr_value))).
  repeat split.
  - rewrite !dict_get_set_other by discriminate.
    destruct attrs; [apply dict_get_set_same | reflexivity].
  - rewrite dict_get_set_other by discriminate. apply dict_get_set_same.
  - eexists. split; [apply dict_get_set_same | apply render_rows_pos].
  - intros key Hname Hcols Hrows. rewrite !dict_get_set_other by assumption.
    destruct attrs; [now apply dict_get_set_other|].
    cbn. apply String.eqb_neq in Hname. now rewrite Hname.
  - unfold render. run. rewrite Hrepr.
    destruct (literal_eval (PStr repr_value)) as [v|e]; [reflexivity|].
    destruct (is_ValueError_or_SyntaxError e); reflexivity.
Qed.

(** X2. The rows do not adapt: [render] counts the lines of a str only when
    its repr holds a line feed, so when it holds none (the repr of a str
    escapes it) the textarea gets one row, however many lines the value
    has. *)
Theorem render_rows_do_not_adapt (name : string) (value : pyval)
        (attrs : option pydict) (repr_value : string) (t : trace) :
  repr value = Ok repr_value ->
  has_newline repr_value = false ->
  exists final : pydict,
    dict_get final "rows" = Some (PInt 1)
    /\ forall html t',
         render name value attrs t = (Ok html, t') ->
         exists shown, textarea_render name shown (build_attrs final) = Ok html.
Proof.
  intros Hrepr Hnl.
  exists (dict_set
            (dict_set
               match attrs with
               | Some given => dict_set given "name" (PStr name)
               | None => [("name"%string, PStr name)]
               end "cols" (PInt 30))
            "rows" (PInt 1)).
  split; [apply dict_get_set_same|].
  intros html t'. unfold render. run. rewrite Hrepr.
  assert (Hrows : render_rows value repr_value = 1)
    by (unfold render_rows; rewrite Hnl; now destruct value).
  rewrite Hrows.
  destruct (literal_eval (PStr repr_value)) as [v|e].
  - intros H. injection H as H _. eauto.
  - destruct (is_ValueError_or_SyntaxError e); intros H; [|discriminate].
    injection H as H _. eauto.
Qed.

(** X3. A blank submission is None: when the cleaned text is empty after
    stripping, [clean] evaluates the text None instead, without looking at
    the repr of anything. *)
Theorem clean_blank_is_None (submitted : pyval) (text : string) (t : trace) :
  charfield_clean submitted = Ok (PStr text) ->
  strip text = EmptyString ->
  literal_eval (PStr "None") = Ok PNone ->
  clean submitted t =
    (Ok PNone, [LiteralEval (PStr "None"); CharFieldClean submitted] ++ t).
Proof.
  intros Hclean Hstrip Hnone. unfold clean. run.
  now rewrite Hclean, Hstrip, Hnone.
Qed.

(** X4. With a [repr] that writes every str as a literal of itself, [clean]
    never raises its validation error on a cleaned text: it returns the
    literal the text denotes, or the text itself when it denotes none; only
    an error of the evaluation that is neither ValueError nor SyntaxError
    gets through. *)
Theorem clean_text_is_never_invalid (submitted : pyval) (s : string) (t : trace) :
  (forall text, exists quoted,
      repr (PStr text) = Ok quoted /\ literal_eval (PStr quoted) = Ok (PStr text)) ->
  charfield_clean submitted = Ok (PStr s) ->
  fst (clean submitted t) =
    let text := match strip s with EmptyString => "None"%string | _ => s end in
    match literal_eval (PStr text) with
    | Ok v => Ok v
    | Raise e => if is_ValueError_or_SyntaxError e then Ok (PStr text) else Raise e
    end.
Proof.
  intros Hlaw Hclean. unfold clean. run. rewrite Hclean. cbv zeta.
  assert (Hcase : forall text (value : pyval), value = PStr text ->
    fst (match literal_eval value with
         | Ok a => (Ok a, LiteralEval value :: CharFieldClean submitted :: t)
         | Raise e =>
             if is_ValueError_or_SyntaxError e
             then
               (try_except
                  (value0 <- lib (Repr value) (repr value) ;;
                   lib (LiteralEval (PStr value0)) (literal_eval (PStr value0)))
                  is_ValueError_or_SyntaxError
                  (fun _ => raise (ValidationError invalid_message)))
                 (LiteralEval value :: CharFieldClean submitted :: t)
             else (Raise e, LiteralEval value :: CharFieldClean submitted :: t)
         end) =
    match literal_eval (PStr text) with
    | Ok v => Ok v
    | Raise e => if is_ValueError_or_SyntaxError e then Ok (PStr text) else Raise e
    end).
  { intros text value ->. destruct (literal_eval (PStr text)) as [v|e]; [reflexivity|].
    destruct (is_ValueError_or_SyntaxError e); [|reflexivity].
    run. destruct (Hlaw text) as (quoted & -> & ->). reflexivity. }
  destruct (strip s); apply Hcase; reflexivity.
Qed.

End WidgetProperties.

(** ** More on the codec and the field *)

Module Base64Shape.

Import Base64 ByteChecks Base64Facts.

Lemma b2a_is_base64_char (s : Z) : is_base64_char (b2a s) = true.
Proof.
  unfold b2a.
  destruct (nth_in_or_default (Z.to_nat s) table_b2a_base64 BASE64_PAD) as [H | ->];
    [|reflexivity].
  revert H. generalize (nth (Z.to_nat s) table_b2a_base64 BASE64_PAD).
  apply forallb_forall. vm_compute. reflexivity.
Qed.

Lemma b64encode_chars (s : bytes) : forallb is_base64_char (b64encode s) = true.
Proof.
  induction s as [|a|a b|a b c s IH] using list_ind3;
    cbn [b64encode forallb]; cbv zeta; rewrite ?b2a_is_base64_char, ?IH; reflexivity.
Qed.

Lemma b64encode_length (s : bytes) :
  exists k : nat, List.length (b64encode s) = (4 * k)%nat.
Proof.
  induction s as [|a|a b|a b c s [k IH]] using list_ind3.
  - exists 0%nat. reflexivity.
  - exists 1%nat. reflexivity.
  - exists 1%nat. reflexivity.
  - exists (S k). cbn [b64encode List.length]. cbv zeta. cbn [List.length].
    rewrite IH. lia.
Qed.

Lemma length_string_of_list_byte (l : bytes) :
  String.length (string_of_list_byte l) = List.length l.
Proof.
  unfold string_of_list_byte.
  induction l as [|b l IH]; simpl; [reflexivity | now rewrite IH].
Qed.

(** The text of any bytes is base64 text. *)
Lemma text_of_is_base64 (b : bytes) : is_base64_text (text_of b) = true.
Proof.
  unfold is_base64_text, text_of.
  rewrite list_byte_of_string_of_list_byte, b64encode_chars, length_string_of_list_byte.
  destruct (b64encode_length b) as [k ->]. cbn [andb].
  apply Z.eqb_eq. rewrite Nat2Z.inj_mul, Z.mul_comm. apply Z.mod_mul. discriminate.
Qed.

(** The decoder passes over every byte that is not a base64 character. *)
Lemma a2b_loop_filter (s : bytes) : forall quad_pos leftchar pads,
  a2b_loop (filter is_base64_char s) quad_pos leftchar pads =
  a2b_loop s quad_pos leftchar pads.
Proof.
  induction s as [|c s IH]; intros quad_pos leftchar pads; [reflexivity|].
  cbn [filter]. unfold is_base64_char at 1.
  destruct (Byte.eqb c BASE64_PAD) eqn:Hpad; cbn [orb].
  - cbn [a2b_loop]. rewrite Hpad. now rewrite IH.
  - destruct (a2b c) as [v|] eqn:Hc.
    + cbn [a2b_loop]. rewrite Hpad, Hc. now rewrite !IH.
    + cbn [a2b_loop]. rewrite Hpad, Hc. apply IH.
Qed.

Lemma b64decode_filter (s : bytes) :
  b64decode (filter is_base64_char s) = b64decode s.
Proof. apply a2b_loop_filter. Qed.

End Base64Shape.

Section FieldProperties.

Context {rt : Runtime}.

Local Open Scope list_scope.

Import Base64Facts Base64Shape.

Ltac run := unfold bind, lib, ret, raise, try_except, try_except_else; cbn beta iota.

Ltac simp :=
  run; rewrite ?bytes_decode_b64encode; run; cbn [isinstance_str]; run.

Ltac branches :=
  repeat (simp;
          match goal with
          | |- context [match ?x with _ => _ end] =>
              lazymatch x with
              | context [match _ with _ => _ end] => fail
              | _ => destruct x
              end
          end);
  simp.

(** The events of [l] before its tail [t]. *)
Ltac prefix_of l t :=
  lazymatch l with
  | t => constr:(@nil event)
  | ?e :: ?l' => let p := prefix_of l' t in constr:(e :: p)
  end.

Lemma from_db_value_decoded (self : PickledObjectField) (value v : pyval) (t : trace) :
  is_None value = false ->
  fst (dbsafe_decode value (compress_ self) t) = Ok v ->
  fst (from_db_value self value t) = Ok (unwrapped v).
Proof.
  intros Hnone Hdec. unfold from_db_value, try_except_else. rewrite Hnone. cbn [negb].
  destruct (dbsafe_decode value (compress_ self) t) as [r t'].
  cbn [fst] in Hdec. subst r. now destruct v.
Qed.

(** X5. What the write path stores reads back: for a value that is not
    None and not yet a payload, [value_to_string] of what [pre_save] hands
    over is a payload that [from_db_value] reads as the value again, wrapped
    by the guard or not; the one exception is a value that is itself a
    wrapper, which reads back as what it holds. *)
Theorem stored_value_reads_back (self : PickledObjectField) (v : pyval) (t : trace) :
  serializable (pre_save v) (protocol self) ->
  is_None v = false ->
  isinstance_PickledObject v = false ->
  exists text t',
    value_to_string self (pre_save v) t = (Ok (PickledObject text), t')
    /\ forall t0, fst (from_db_value self (PStr text) t0) = Ok (unwrapped v).
Proof.
  intros (b & z & Hcopy & Hdumps & Hloads & Hz & Hunz) Hnone Hpickled.
  assert (Hw : is_None (pre_save v) = false /\ isinstance_PickledObject (pre_save v) = false
               /\ unwrapped (pre_save v) = unwrapped v).
  { unfold pre_save, wrap_conflictual_object.
    destruct (hasattr v "prepare_database_save" || callable v) eqn:Hneed; [|auto].
    repeat split. destruct v; try reflexivity; discriminate Hneed. }
  destruct Hw as (Hn & Hp & Hu).
  unfold value_to_string, get_db_prep_value. rewrite Hn, Hp. cbn [negb andb].
  unfold bind at 1.
  rewrite (@dbsafe_encode_copied _ _ _ (compress_ self) _ _ _ t Hcopy Hdumps Hz).
  unfold force_str. cbn [isinstance_str]. run.
  eexists. eexists. split; [reflexivity|]. intros t0.
  rewrite <- Hu. apply from_db_value_decoded; [reflexivity|].
  destruct (str_encode_text_of (if compress_ self then z else b)) as [_ H2].
  exact (@dbsafe_decode_text_of _ _ (compress_ self) b z _ t0 H2 Hunz Hloads).
Qed.

(** X7. The guard wraps at most once: a wrapper has neither the reserved
    hook nor a call, so wrapping a wrapped value changes nothing. *)
Theorem wrap_conflictual_object_idempotent (obj : pyval) :
  hasattr (wrap_conflictual_object obj) "prepare_database_save"
    || callable (wrap_conflictual_object obj) = false
  /\ wrap_conflictual_object (wrap_conflictual_object obj) = wrap_conflictual_object obj.
Proof.
  assert (H : hasattr (wrap_conflictual_object obj) "prepare_database_save"
                || callable (wrap_conflictual_object obj) = false).
  { unfold wrap_conflictual_object at 1 2.
    destruct (hasattr obj "prepare_database_save" || callable obj) eqn:E;
      [reflexivity | exact E]. }
  split; [exact H|].
  unfold wrap_conflictual_object at 1. now rewrite H.
Qed.

Lemma dbsafe_encode_text_of value compress_object pickle_protocol t r t' :
  dbsafe_encode value compress_object pickle_protocol t = (Ok r, t') ->
  exists b, r = PickledObject (text_of b).
Proof.
  unfold dbsafe_encode. branches.
  all: intros H; try discriminate H; injection H as <- _; eauto.
Qed.

(** X8. Whatever [dbsafe_encode] returns is a [PickledObject] whose text is
    made of base64 characters only, in groups of four. *)
Theorem dbsafe_encode_is_base64_text (value : pyval) (compress_object : bool)
        (pickle_protocol : Z) (t t' : trace) (r : pyval) :
  dbsafe_encode value compress_object pickle_protocol t = (Ok r, t') ->
  exists text, r = PickledObject text /\ is_base64_text text = true.
Proof.
  intros H. apply dbsafe_encode_text_of in H as [b ->].
  eexists. split; [reflexivity | apply text_of_is_base64].
Qed.

(** X9. Without the compress flag zlib is never called, neither by
    [dbsafe_encode] nor by [dbsafe_decode], whatever the other calls
    answer. *)
Theorem no_zlib_without_compress (value : pyval) (pickle_protocol : Z) (t : trace) :
  (exists calls, snd (dbsafe_encode value false pickle_protocol t) = calls ++ t
                 /\ existsb is_zlib_call calls = false)
  /\ (exists calls, snd (dbsafe_decode value false t) = calls ++ t
                    /\ existsb is_zlib_call calls = false).
Proof.
  split.
  - unfold dbsafe_encode. branches.
    all: match goal with
         | |- exists calls, snd (_, ?l) = _ /\ _ =>
             let p := prefix_of l t in exists p; split; reflexivity
         end.
  - unfold dbsafe_decode. branches.
    all: match goal with
         | |- exists calls, snd (_, ?l) = _ /\ _ =>
             let p := prefix_of l t in exists p; split; reflexivity
         end.
Qed.

(** X10. The decoder is lenient: bytes of the stored text that are not
    base64 characters (line breaks, blanks) are passed over, so two texts
    with the same base64 characters decode to the same outcome. *)
Theorem dbsafe_decode_ignores_other_characters (s s' : string) (c : bool) (t : trace) :
  filter is_base64_char (list_byte_of_string s) =
  filter is_base64_char (list_byte_of_string s') ->
  fst (dbsafe_decode (PStr s) c t) = fst (dbsafe_decode (PStr s') c t).
Proof.
  intros Hsame. unfold dbsafe_decode. run. cbn [str_encode].
  rewrite <- (b64decode_filter (list_byte_of_string s)),
          <- (b64decode_filter (list_byte_of_string s')), Hsame.
  destruct (Base64.b64decode _) as [b|e]; [|reflexivity].
  destruct c; run; [destruct (decompress b) as [b'|e]; [|reflexivity]|];
    match goal with |- context [loads ?x] => destruct (loads x) end; reflexivity.
Qed.

(** X11. A mismatched compress flag is not reported on the read path: when
    the stored plain text is the base64 of bytes that the field's setting
    cannot read (they do not decompress, or they are no pickle), the text
    itself is returned; only a tagged payload raises. *)
Theorem unreadable_payload_is_returned (self : PickledObjectField) (b : bytes)
        (e : exn) (t : trace) :
  (compress_ self = true /\ decompress b = Raise e)
  \/ (compress_ self = false /\ loads b = Raise e) ->
  let calls := [if compress_ self then Decompress b else Loads b;
                B64decode (Base64.b64encode b)] in
  from_db_value self (PStr (text_of b)) t = (Ok (PStr (text_of b)), calls ++ t)
  /\ from_db_value self (PickledObject (text_of b)) t = (Raise e, calls ++ t).
Proof.
  intros Hfail calls. subst calls.
  destruct (str_encode_text_of b) as [H1 H2].
  unfold from_db_value, try_except_else, dbsafe_decode. cbn [is_None negb]. run.
  rewrite H1, H2, b64decode_b64encode.
  destruct Hfail as [[-> Hfail] | [-> Hfail]]; run; rewrite Hfail; split; reflexivity.
Qed.

(** X12. A payload encoded beforehand is stored as it is and read back as
    the value it encodes: the write path does not encode it again. *)
Theorem pre_encoded_payload_reads_back (self : PickledObjectField) (v : pyval)
        (p : Z) (t : trace) :
  serializable v p ->
  exists payload t',
    dbsafe_encode v (compress_ self) p t = (Ok payload, t')
    /\ get_db_prep_value self payload t' = (Ok payload, t')
    /\ forall t0, fst (from_db_value self payload t0) = Ok (unwrapped v).
Proof.
  intros (b & z & Hcopy & Hdumps & Hloads & Hz & Hunz).
  eexists. eexists. split.
  - exact (@dbsafe_encode_copied _ _ _ (compress_ self) _ _ _ t Hcopy Hdumps Hz).
  - split; [reflexivity|]. intros t0.
    apply from_db_value_decoded; [reflexivity|].
    destruct (str_encode_text_of (if compress_ self then z else b)) as [H1 _].
    exact (@dbsafe_decode_text_of _ _ (compress_ self) b z _ t0 H1 Hunz Hloads).
Qed.

End FieldProperties.

(** ** The further theorems on the reference runtime *)

Module MoreScenarioFacts.

Import Scenarios MoreScenarios.

Local Open Scope list_scope.

Ltac by_running :=
  unfold serializable;
  match goal with
  | |- exists b z, _ /\ @dumps ?rt ?v ?p = _ /\ _ =>
      let b := eval vm_compute in
        (match @dumps rt v p with Ok b => b | Raise _ => [] end) in
      let z := eval vm_compute in
        (match @compress rt b with Ok z => z | Raise _ => [] end) in
      exists b, z; repeat split; vm_compute; reflexivity
  end.

(** The mapping is shown with 30 columns though the caller asked for 80, and
    the caller's class is kept. *)
Lemma mapping_is_rendered :
  exists final : pydict,
    dict_get final "name" = Some (PStr "db_value")
    /\ dict_get final "cols" = Some (PInt 30)
    /\ (exists rows, dict_get final "rows" = Some (PInt rows) /\ 1 <= rows)
    /\ (forall key, key <> "name"%string -> key <> "cols"%string -> key <> "rows"%string ->
          dict_get final key = dict_get given_attrs key)
    /\ @render Ref.runtime RefForms.forms "db_value" mapping (Some given_attrs) [] =
         (RefForms.textarea_render "db_value" mapping final,
          [LiteralEval (PStr "{'a': 1, 'b': [1, 2, 3]}"); Repr mapping]).
Proof.
  exact (@render_hands_over Ref.runtime RefForms.forms "db_value" mapping
           (Some given_attrs) "{'a': 1, 'b': [1, 2, 3]}" [] eq_refl).
Defined.

(** A str of two lines is shown in one row. *)
Lemma two_lines_in_one_row :
  split_lines_len ("first" ++ String LF "second") = 2
  /\ exists final : pydict,
       dict_get final "rows" = Some (PInt 1)
       /\ forall html t',
            @render Ref.runtime RefForms.forms "db_value" two_lines None [] = (Ok html, t') ->
            exists shown, RefForms.textarea_render "db_value" shown final = Ok html.
Proof.
  split; [reflexivity|].
  exact (@render_rows_do_not_adapt Ref.runtime RefForms.forms "db_value" two_lines None
           (Ref.repr_val two_lines) [] eq_refl
           (RefFacts.repr_str_no_newline ("first" ++ String LF "second"))).
Defined.

(** A submission without the field is None. *)
Lemma missing_field_is_None :
  value_from_datadict [] [] "db_value" = PNone
  /\ @clean Ref.runtime (value_from_datadict [] [] "db_value") [] =
       (Ok PNone, [LiteralEval (PStr "None"); CharFieldClean PNone]).
Proof.
  split; [reflexivity|].
  exact (@clean_blank_is_None Ref.runtime PNone "" [] eq_refl eq_refl eq_refl).
Defined.

(** Words that are no literal are cleaned to themselves. *)
Lemma words_are_cleaned_to_text :
  fst (@clean Ref.runtime (PStr "hello world") []) = Ok (PStr "hello world").
Proof.
  exact (@clean_text_is_never_invalid Ref.runtime (PStr "hello world") "hello world" []
           (fun text => ex_intro _ (Ref.repr_str text)
                          (conj eq_refl (RefFacts.literal_eval_repr_str text)))
           eq_refl).
Defined.

(** The mapping, stored compressed, reads back. *)
Lemma mapping_reads_back :
  exists text t',
    @value_to_string Ref.runtime compressed (pre_save mapping) [] =
      (Ok (PickledObject text), t')
    /\ forall t0, fst (@from_db_value Ref.runtime compressed (PStr text) t0) = Ok mapping.
Proof.
  apply (@stored_value_reads_back Ref.runtime compressed mapping []);
    [by_running | reflexivity | reflexivity].
Defined.

(** The compressed payload of the mapping is base64 text. *)
Lemma mapping_payload_is_base64 :
  exists text,
    PickledObject (text_of mapping_compressed) = PickledObject text
    /\ is_base64_text text = true.
Proof.
  apply (@dbsafe_encode_is_base64_text Ref.runtime mapping true 4 []
           ([B64encode mapping_compressed; Compress mapping_pickle;
             Dumps mapping 4; Deepcopy mapping])).
  vm_compute. reflexivity.
Defined.

(** A line break inside the payload of None does not matter. *)
Lemma broken_payload_decodes :
  fst (@dbsafe_decode Ref.runtime (PStr none_payload_broken) false []) =
  fst (@dbsafe_decode Ref.runtime (PStr none_payload) false []).
Proof.
  apply (@dbsafe_decode_ignores_other_characters Ref.runtime
           none_payload_broken none_payload false []).
  vm_compute. reflexivity.
Defined.

(** The compressed payload read by a field without compression, and the
    plain payload read by a field with compression, come back as text. *)
Lemma mismatched_flag_returns_text :
  @from_db_value Ref.runtime plain (PStr (text_of mapping_compressed)) [] =
    (Ok (PStr (text_of mapping_compressed)),
     [Loads mapping_compressed; B64decode (Base64.b64encode mapping_compressed)])
  /\ @from_db_value Ref.runtime compressed (PStr (text_of mapping_pickle)) [] =
       (Ok (PStr (text_of mapping_pickle)),
        [Decompress mapping_pickle; B64decode (Base64.b64encode mapping_pickle)]).
Proof.
  split.
  - apply (proj1 (@unreadable_payload_is_returned Ref.runtime plain mapping_compressed
                    UnpicklingError [] (or_intror (conj eq_refl eq_refl)))).
  - apply (proj1 (@unreadable_payload_is_returned Ref.runtime compressed mapping_pickle
                    ZlibError [] (or_introl (conj eq_refl eq_refl)))).
Defined.

(** The mapping encoded beforehand is stored as it is and reads back. *)
Lemma pre_encoded_mapping_reads_back :
  exists payload t',
    @dbsafe_encode Ref.runtime mapping false 4 [] = (Ok payload, t')
    /\ @get_db_prep_value Ref.runtime plain payload t' = (Ok payload, t')
    /\ forall t0, fst (@from_db_value Ref.runtime plain payload t0) = Ok mapping.
Proof.
  apply (@pre_encoded_payload_reads_back Ref.runtime plain mapping 4 []).
  by_running.
Defined.

End MoreScenarioFacts.
